(** * go-crud: a shallow embedding of the repository layer

    This development embeds the query-building core of the go-crud
    repository package ([repositories/condition_builder.go] and the
    generic [GormRepository] of [repositories/gorm.repository.go]) and
    proves the properties of its specification on that embedding.

    Go values of type [any] are modelled by [val]; Go strings by
    [String.string]; [strings.Join] by [String.concat]. *)

From Stdlib Require Import String Ascii ZArith List Lia.
From stdpp Require Import base gmap strings list.

Import ListNotations.
Open Scope string_scope.
Set Warnings "-register-all".

Local Notation "a +s+ b" := (String.append a b) (at level 60, right associativity).

(** ** Dynamic values ([any]) *)

Inductive val : Type :=
| VNil
| VInt (z : Z)
| VUint (z : Z)
| VStr (s : string)
| VBool (b : bool)
| VList (l : list val).

(** [strings.ToLower], on the ASCII range. *)
Definition lower_ascii (c : ascii) : ascii :=
  let n := nat_of_ascii c in
  if (65 <=? n)%nat && (n <=? 90)%nat then ascii_of_nat (n + 32) else c.

Fixpoint ToLower (s : string) : string :=
  match s with
  | EmptyString => EmptyString
  | String c rest => String (lower_ascii c) (ToLower rest)
  end.

(** ** Condition builder ([condition_builder.go]) *)

Module ConditionBuilder.

(** [type Condition struct { parts []conditionPart }] and
    [type conditionPart struct { connector, fragment, args, group }];
    [group = None] is the nil pointer. *)
Inductive Condition : Type :=
| Cond (parts : list conditionPart)
with conditionPart : Type :=
| Part (connector : string) (fragment : string) (args : list val)
       (group : option Condition).

Definition parts (c : Condition) : list conditionPart :=
  match c with Cond ps => ps end.

(** [newLeaf(fragment, args...)] *)
Definition newLeaf (fragment : string) (args : list val) : Condition :=
  Cond [Part "" fragment args None].

Definition Eq (column : string) (value : val) : Condition :=
  newLeaf (column +s+ " = ?") [value].
Definition NotEq (column : string) (value : val) : Condition :=
  newLeaf (column +s+ " != ?") [value].
Definition Gt (column : string) (value : val) : Condition :=
  newLeaf (column +s+ " > ?") [value].
Definition Gte (column : string) (value : val) : Condition :=
  newLeaf (column +s+ " >= ?") [value].
Definition Lt (column : string) (value : val) : Condition :=
  newLeaf (column +s+ " < ?") [value].
Definition Lte (column : string) (value : val) : Condition :=
  newLeaf (column +s+ " <= ?") [value].
Definition In (column : string) (values : val) : Condition :=
  newLeaf (column +s+ " IN (?)") [values].
Definition NotIn (column : string) (values : val) : Condition :=
  newLeaf (column +s+ " NOT IN (?)") [values].
Definition Like (column pattern : string) : Condition :=
  newLeaf (column +s+ " LIKE ?") [VStr pattern].
Definition ILike (column pattern : string) : Condition :=
  newLeaf ("LOWER(" +s+ column +s+ ") LIKE ?") [VStr (ToLower pattern)].
Definition Contains (column value : string) : Condition :=
  newLeaf ("LOWER(" +s+ column +s+ ") LIKE ?") [VStr ("%" +s+ ToLower value +s+ "%")].
Definition IsNull (column : string) : Condition :=
  Cond [Part "" (column +s+ " IS NULL") [] None].
Definition Between (column : string) (low high : val) : Condition :=
  Cond [Part "" (column +s+ " BETWEEN ? AND ?") [low; high] None].
Definition Raw (fragment : string) (args : list val) : Condition :=
  Cond [Part "" fragment args None].
Definition IsNotNull (column : string) : Condition :=
  Cond [Part "" (column +s+ " IS NOT NULL") [] None].
Definition NotBetween (column : string) (low high : val) : Condition :=
  Cond [Part "" (column +s+ " NOT BETWEEN ? AND ?") [low; high] None].
Definition StartsWith (column value : string) : Condition :=
  newLeaf ("LOWER(" +s+ column +s+ ") LIKE ?") [VStr (ToLower value +s+ "%")].
Definition EndsWith (column value : string) : Condition :=
  newLeaf ("LOWER(" +s+ column +s+ ") LIKE ?") [VStr ("%" +s+ ToLower value)].

(** [c.And(other)] and [c.Or(other)]: the receiver is extended with the
    operand as a nested group; a nil operand returns the receiver as is. *)
Definition And (c : Condition) (other : option Condition) : Condition :=
  match other with
  | None => c
  | Some o => Cond (app (parts c) [Part "AND" "" [] (Some o)])
  end.

Definition Or (c : Condition) (other : option Condition) : Condition :=
  match other with
  | None => c
  | Some o => Cond (app (parts c) [Part "OR" "" [] (Some o)])
  end.

(** The [for i, part := range c.parts] loop of [compile], with the
    recursive call on nested groups passed as [rec]. It returns the
    [segments] and [allArgs] accumulated by the loop. *)
Definition compile_loop (rec : Condition -> string * list val) :
  nat -> list conditionPart -> list string -> list val -> list string * list val :=
  fix go i ps segments allArgs :=
    match ps with
    | [] => (segments, allArgs)
    | Part conn frag pargs grp :: rest =>
        let emit fragment args :=
          let segments' :=
            if (0 <? i)%nat && negb (String.eqb conn "")
            then app segments [conn] else segments in
          go (S i) rest (app segments' [fragment]) (app allArgs args) in
        match grp with
        | Some g =>
            let '(fragment, args) := rec g in
            if String.eqb fragment "" then go (S i) rest segments allArgs
            else
              let fragment :=
                if (1 <? length (parts g))%nat then "(" +s+ fragment +s+ ")"
                else fragment in
              emit fragment args
        | None => emit frag pargs
        end
    end.

(** [func (c *Condition) compile() (string, []any)] *)
Fixpoint compile (c : Condition) : string * list val :=
  match c with
  | Cond [] => ("", [])
  | Cond ps =>
      let '(segments, allArgs) := compile_loop compile 0 ps [] [] in
      (String.concat " " segments, allArgs)
  end.

(** [Build()]: the [query]/[args] map as a pair. *)
Definition Build (c : option Condition) : string * list val :=
  match c with
  | None => ("", [])
  | Some c' => match parts c' with [] => ("", []) | _ => compile c' end
  end.

End ConditionBuilder.

(** ** Configuration ([configs/gorm.config.go]) *)

Module Configs.

Record GormFilterProperty := {
  ColumnName : string;
  FilterType : string   (* [type GormFilterType string] *)
}.

Definition GormFilterTypeEqual := "equal".
Definition GormFilterTypeIn := "in".
Definition GormFilterTypeNotIn := "not_in".
Definition GormFilterTypeLT := "lt".
Definition GormFilterTypeGT := "gt".
Definition GormFilterTypeLTE := "lte".
Definition GormFilterTypeGTE := "gte".
Definition GormFilterTypeRegex := "regex".

Record GormSelectField := { Column : string; Alias : string }.

Module Preload.
Record GormPreloadConfig := {
  Relation : string;
  UnScoped : bool;
  SelectHandler : option (string -> list GormSelectField)
}.
End Preload.

Module QueryField.
Record GormQueryField := {
  Operation : string;
  Column : string;
  Value : val
}.
End QueryField.

(** [GormConfig], with the list-only overrides read by [resolveListConfig].
    A nil function or slice is [None]. *)
Record GormConfig := {
  Filterable : gmap string GormFilterProperty;
  Searchable : list string;
  DefaultSort : string;
  SelectHandler : option (string -> list GormSelectField);
  Preloads : list Preload.GormPreloadConfig;
  Joins : string;
  UnScoped : bool;
  Group : string;
  ListSelectHandler : option (string -> list GormSelectField);
  ListPreloads : option (list Preload.GormPreloadConfig)
}.

End Configs.

(** ** Request DTO ([dto/base_filter_dto.go]) *)

Module Dto.

Record BaseFilterDto := {
  Page : Z;
  PerPage : Z;
  Pagination : option bool;
  Search : option string;
  SortKey : option string;
  SortDir : option string
}.

(** A [FilterDto]: its [GetBase()] and the outcome of its [ToMap()], the
    map's entries listed in the order the [range] loop visits them. *)
Record FilterDto := {
  GetBase : BaseFilterDto;
  ToMap : (list (string * val)) + string
}.

End Dto.

(** ** The query under construction ([*gorm.DB] chain) *)

Module Gorm.

Record Query := {
  q_joins : list string;
  q_where : list (string * list val);
  q_select : option string;
  q_preloads : list (string * option string * bool);
  q_unscoped : bool;
  q_order : list string;
  q_group : list string;
  q_offset : option Z;
  q_limit : option Z
}.

(** [r.DB.WithContext(ctx).Model(new(T))] *)
Definition NewQuery : Query :=
  {| q_joins := []; q_where := []; q_select := None; q_preloads := [];
     q_unscoped := false; q_order := []; q_group := []; q_offset := None;
     q_limit := None |}.

Definition JoinsQ (j : string) (q : Query) : Query :=
  {| q_joins := app (q_joins q) [j]; q_where := q_where q; q_select := q_select q;
     q_preloads := q_preloads q; q_unscoped := q_unscoped q; q_order := q_order q;
     q_group := q_group q; q_offset := q_offset q; q_limit := q_limit q |}.
Definition WhereQ (w : string) (args : list val) (q : Query) : Query :=
  {| q_joins := q_joins q; q_where := app (q_where q) [(w, args)]; q_select := q_select q;
     q_preloads := q_preloads q; q_unscoped := q_unscoped q; q_order := q_order q;
     q_group := q_group q; q_offset := q_offset q; q_limit := q_limit q |}.
Definition SelectQ (sel : string) (q : Query) : Query :=
  {| q_joins := q_joins q; q_where := q_where q; q_select := Some sel;
     q_preloads := q_preloads q; q_unscoped := q_unscoped q; q_order := q_order q;
     q_group := q_group q; q_offset := q_offset q; q_limit := q_limit q |}.
Definition PreloadQ (rel : string) (sel : option string) (unscoped : bool) (q : Query) : Query :=
  {| q_joins := q_joins q; q_where := q_where q; q_select := q_select q;
     q_preloads := app (q_preloads q) [(rel, sel, unscoped)]; q_unscoped := q_unscoped q;
     q_order := q_order q; q_group := q_group q; q_offset := q_offset q; q_limit := q_limit q |}.
Definition UnscopedQ (q : Query) : Query :=
  {| q_joins := q_joins q; q_where := q_where q; q_select := q_select q;
     q_preloads := q_preloads q; q_unscoped := true; q_order := q_order q;
     q_group := q_group q; q_offset := q_offset q; q_limit := q_limit q |}.
Definition OrderQ (o : string) (q : Query) : Query :=
  {| q_joins := q_joins q; q_where := q_where q; q_select := q_select q;
     q_preloads := q_preloads q; q_unscoped := q_unscoped q; q_order := app (q_order q) [o];
     q_group := q_group q; q_offset := q_offset q; q_limit := q_limit q |}.
Definition GroupQ (g : string) (q : Query) : Query :=
  {| q_joins := q_joins q; q_where := q_where q; q_select := q_select q;
     q_preloads := q_preloads q; q_unscoped := q_unscoped q; q_order := q_order q;
     q_group := app (q_group q) [g]; q_offset := q_offset q; q_limit := q_limit q |}.
Definition OffsetLimitQ (off lim : Z) (q : Query) : Query :=
  {| q_joins := q_joins q; q_where := q_where q; q_select := q_select q;
     q_preloads := q_preloads q; q_unscoped := q_unscoped q; q_order := q_order q;
     q_group := q_group q; q_offset := Some off; q_limit := Some lim |}.

End Gorm.

(** ** Pointers to configurations and the panic/state monad

    [*configs.GormConfig] values live in a store; [None] is the nil
    pointer. A computation threads the store and may panic (a nil
    dereference or a failed type assertion); the store it leaves is kept
    either way. *)

Module Store.
Import Configs.

Abbreviation loc := positive.
Abbreviation store := (gmap loc GormConfig).

Inductive outcome (A : Type) : Type :=
| Ret (a : A)
| Panic (msg : string).
Arguments Ret {A} a.
Arguments Panic {A} msg.

Definition M (A : Type) : Type := store -> outcome A * store.

Definition mret {A} (a : A) : M A := fun st => (Ret a, st).
Definition mbind {A B} (m : M A) (k : A -> M B) : M B :=
  fun st => match m st with
            | (Ret a, st') => k a st'
            | (Panic e, st') => (Panic e, st')
            end.
Definition mpanic {A} (msg : string) : M A := fun st => (Panic msg, st).

Notation "'let*' x := m 'in' k" := (mbind m (fun x => k))
  (at level 200, x name, m at level 100, k at level 200).

(** [*p]: a nil or dangling pointer panics. *)
Definition deref (p : option loc) : M GormConfig :=
  fun st => match p with
            | Some l => match st !! l with
                        | Some cfg => (Ret cfg, st)
                        | None => (Panic "invalid memory address", st)
                        end
            | None => (Panic "nil pointer dereference", st)
            end.

(** [&cfg] for a local copy [cfg]: a fresh cell. *)
Definition alloc (cfg : GormConfig) : M loc :=
  fun st => let l := fresh (dom st) in (Ret l, <[l := cfg]> st).

End Store.

(** ** The repository ([repositories/gorm.repository.go]) *)

Module Repository.
Import ConditionBuilder Configs Dto Gorm Store.

Record GormRepository := {
  Config : option loc;
  TableName : string
}.

(** The [conditions any] argument: a [*Condition], a [map[string]any]
    (its ["query"] and ["args"] entries, [None] when absent) or any other
    value, which adds no WHERE clause. *)
Inductive Conditions :=
| CondPtr (c : option Condition)
| CondMap (query : option val) (args : option val)
| CondOther.

Definition config_ptr (r : GormRepository) (gormConfig : option loc) : option loc :=
  match gormConfig with None => Config r | Some p => Some p end.

Definition select_clauses (fields : list GormSelectField) : string :=
  String.concat ", "
    (map (fun f => let alias := if String.eqb (Alias f) "" then Column f else Alias f in
                   Column f +s+ " AS " +s+ alias) fields).

(** [BuildQueryConditions] *)
Definition BuildQueryConditions (r : GormRepository) (conditions : Conditions)
    (gormConfig : option loc) : M Query :=
  let* config := deref (config_ptr r gormConfig) in
  let query := NewQuery in
  let query := if String.eqb (Joins config) "" then query else JoinsQ (Joins config) query in
  let conditions :=
    match conditions with
    | CondPtr c => let '(q, a) := Build c in CondMap (Some (VStr q)) (Some (VList a))
    | other => other
    end in
  match conditions with
  | CondMap (Some (VStr q)) args =>
      if String.eqb q "" then mret query
      else match args with
           | Some (VList a) => mret (WhereQ q a query)
           | _ => mpanic "interface conversion: interface {} is not []interface {}"
           end
  | _ => mret query
  end.

(** The [for _, preload := range config.Preloads] loop of [BuildQueryConfig]
    (one [preload] variable per iteration). *)
Definition apply_preloads (lang : string) (preloads : list Preload.GormPreloadConfig)
    (query : Query) : Query :=
  fold_left
    (fun query preload =>
       match Preload.SelectHandler preload with
       | Some h => PreloadQ (Preload.Relation preload) (Some (select_clauses (h lang)))
                            (Preload.UnScoped preload) query
       | None => PreloadQ (Preload.Relation preload) None false query
       end) preloads query.

(** [BuildQueryConfig]; [lang] is [middlewares.GetLangFromContext(ctx)]. *)
Definition BuildQueryConfig (r : GormRepository) (conditions : Conditions)
    (gormConfig : option loc) (lang : string) : M Query :=
  let* config := deref (config_ptr r gormConfig) in
  let* pconfig := alloc config in
  let* query := BuildQueryConditions r conditions (Some pconfig) in
  let query := match SelectHandler config with
               | Some h => SelectQ (select_clauses (h lang)) query
               | None => query
               end in
  let query := apply_preloads lang (Preloads config) query in
  let query := if UnScoped config then UnscopedQ query else query in
  mret query.

(** [BuildBaseQuery] *)
Definition BuildBaseQuery (r : GormRepository) (conditions : Conditions)
    (filter : FilterDto) (gormConfig : option loc) (lang : string) : M Query :=
  let* query := BuildQueryConfig r conditions gormConfig lang in
  let* config := deref (config_ptr r gormConfig) in
  let filterDto := GetBase filter in
  let sortKey := match SortKey filterDto with
                 | Some k => k
                 | None => if String.eqb (DefaultSort config) "" then "created_at"
                           else DefaultSort config
                 end in
  let sortDir := match SortDir filterDto with
                 | Some d => ToLower d
                 | None => "desc"
                 end in
  mret (OrderQ (sortKey +s+ " " +s+ sortDir) query).

(** [resolveListConfig]: a copy of the configuration with the list-only
    overrides applied, returned by address. *)
Definition resolveListConfig (r : GormRepository) (config : option loc) : M loc :=
  let* cfg := deref (config_ptr r config) in
  let cfg := match ListSelectHandler cfg with
             | Some h => {| Filterable := Filterable cfg; Searchable := Searchable cfg;
                            DefaultSort := DefaultSort cfg; SelectHandler := Some h;
                            Preloads := Preloads cfg; Joins := Joins cfg;
                            UnScoped := UnScoped cfg; Group := Group cfg;
                            ListSelectHandler := ListSelectHandler cfg;
                            ListPreloads := ListPreloads cfg |}
             | None => cfg
             end in
  let cfg := match ListPreloads cfg with
             | Some ps => {| Filterable := Filterable cfg; Searchable := Searchable cfg;
                             DefaultSort := DefaultSort cfg; SelectHandler := SelectHandler cfg;
                             Preloads := ps; Joins := Joins cfg;
                             UnScoped := UnScoped cfg; Group := Group cfg;
                             ListSelectHandler := ListSelectHandler cfg;
                             ListPreloads := ListPreloads cfg |}
             | None => cfg
             end in
  alloc cfg.

(** Go's [int] (64 bits): results of arithmetic wrap around. *)
Definition wrap64 (z : Z) : Z := ((z + 2 ^ 63) mod 2 ^ 64 - 2 ^ 63)%Z.

(** [Paginate(page, size)] applied to a query. *)
Definition Paginate (page size : Z) (db : Query) : Query :=
  let page := if (page <=? 0)%Z then 1%Z else page in
  let size := if (size <=? 0)%Z then 10%Z else size in
  let offset := wrap64 (wrap64 (page - 1) * size) in
  OffsetLimitQ offset size db.

(** The [switch prop.FilterType] of [QueryBuilder]: the fragment and the
    bound value a filter entry adds, [None] for a filter type outside the
    switch; the [regex] case asserts [value.(string)]. *)
Definition filter_leaf (column : string) (filterType : string) (value : val)
  : outcome (option (string * val)) :=
  if String.eqb filterType GormFilterTypeEqual then Ret (Some (column +s+ " = ?", value))
  else if String.eqb filterType GormFilterTypeIn then Ret (Some (column +s+ " IN (?)", value))
  else if String.eqb filterType GormFilterTypeNotIn then Ret (Some (column +s+ " NOT IN (?)", value))
  else if String.eqb filterType GormFilterTypeLT then Ret (Some (column +s+ " < ?", value))
  else if String.eqb filterType GormFilterTypeGT then Ret (Some (column +s+ " > ?", value))
  else if String.eqb filterType GormFilterTypeLTE then Ret (Some (column +s+ " <= ?", value))
  else if String.eqb filterType GormFilterTypeGTE then Ret (Some (column +s+ " >= ?", value))
  else if String.eqb filterType GormFilterTypeRegex then
    match value with
    | VStr v => Ret (Some ("lower(" +s+ column +s+ ") LIKE ?", VStr ("%" +s+ ToLower v +s+ "%")))
    | _ => Panic "interface conversion: interface {} is not string"
    end
  else Ret None.

(** The [for key, value := range result] loop of [QueryBuilder]. *)
Fixpoint filter_loop (filterable : gmap string GormFilterProperty)
    (result : list (string * val)) (queryStrings : list string) (queryValues : list val)
  : outcome (list string * list val) :=
  match result with
  | [] => Ret (queryStrings, queryValues)
  | (key, value) :: rest =>
      match filterable !! key with
      | Some prop =>
          let column := if String.eqb (ColumnName prop) "" then key else ColumnName prop in
          match filter_leaf column (FilterType prop) value with
          | Ret (Some (frag, v)) =>
              filter_loop filterable rest (app queryStrings [frag]) (app queryValues [v])
          | Ret None => filter_loop filterable rest queryStrings queryValues
          | Panic e => Panic e
          end
      | None => filter_loop filterable rest queryStrings queryValues
      end
  end.

(** The search group of [QueryBuilder]: its fragments and bound values. *)
Definition search_group (search : option string) (searchable : list string)
  : list string * list val :=
  match search, searchable with
  | Some s, _ :: _ =>
      (["(" +s+ String.concat " OR "
               (map (fun field => "lower(" +s+ field +s+ ") LIKE ?") searchable) +s+ ")"],
       map (fun _ => VStr ("%" +s+ ToLower s +s+ "%")) searchable)
  | _, _ => ([], [])
  end.

(** [QueryBuilder]: the ["query"]/["args"] map as a pair, or the error of
    [filter.ToMap()]. *)
Definition QueryBuilder (r : GormRepository) (filter : FilterDto) (gormConfig : option loc)
  : M ((string * list val) + string) :=
  let* config := deref (config_ptr r gormConfig) in
  let filterDto := GetBase filter in
  let '(queryStrings, queryValues) := search_group (Search filterDto) (Searchable config) in
  match ToMap filter with
  | inr err => mret (inr err)
  | inl result =>
      fun st => match filter_loop (Filterable config) result queryStrings queryValues with
                | Ret (qs, vs) => (Ret (inl (String.concat " AND " qs, vs)), st)
                | Panic e => (Panic e, st)
                end
  end.

End Repository.

(** ** Repository operations issuing backend calls

    The backend ([gorm] executing a query) is a parameter: [db_first],
    [db_find] and [db_count] give the outcome of [First], [Find] and [Count]
    on a built query. *)

Module Operations.
Import ConditionBuilder Configs Dto Gorm Store Repository.

Inductive DbError :=
| ErrRecordNotFound
| ErrBackend (msg : string).

Section Backend.
Context {Entity : Type}.
Variable db_first : Query -> Entity * option DbError.
Variable db_find : Query -> list Entity * option DbError.
Variable db_count : Query -> Z * option DbError.

(** [FindOne]: the pointer result ([None] for nil) and the error. *)
Definition FindOne (r : GormRepository) (conditions : Conditions) (config : option loc)
    (lang : string) : M (option Entity * option DbError) :=
  let* query := BuildQueryConfig r conditions config lang in
  let '(model, err) := db_first query in
  match err with
  | Some ErrRecordNotFound => mret (None, None)
  | _ => mret (Some model, err)
  end.

(** [FindOneByPK]: the same lookup on [Eq("id", id)]. *)
Definition FindOneByPK (r : GormRepository) (id : val) (config : option loc)
    (lang : string) : M (option Entity * option DbError) :=
  let* query := BuildQueryConfig r (CondPtr (Some (Eq "id" id))) config lang in
  let '(model, err) := db_first query in
  match err with
  | Some ErrRecordNotFound => mret (None, None)
  | _ => mret (Some model, err)
  end.

(** [FindByIDs] *)
Definition FindByIDs (r : GormRepository) (ids : list val) (config : option loc)
    (lang : string) : M (list Entity * option DbError) :=
  let* query := BuildQueryConfig r (CondPtr (Some (In "id" (VList ids)))) config lang in
  mret (db_find query).

(** [FindAll] *)
Definition FindAll (r : GormRepository) (conditions : Conditions) (filter : FilterDto)
    (config : option loc) (lang : string) : M (list Entity * option DbError) :=
  let* listConfig := resolveListConfig r config in
  let* query := BuildBaseQuery r conditions filter (Some listConfig) lang in
  mret (db_find query).

(** [FindAllWithPaging]: the [ListResponse] as [(Total, Data)]. *)
Definition FindAllWithPaging (r : GormRepository) (conditions : Conditions)
    (filter : FilterDto) (config : option loc) (lang : string)
  : M ((Z * list Entity) + DbError) :=
  let* listConfig := resolveListConfig r config in
  let* query := BuildBaseQuery r conditions filter (Some listConfig) lang in
  let* countQuery := BuildQueryConditions r conditions (Some listConfig) in
  let* lc := deref (Some listConfig) in
  let '(query, countQuery) :=
    if String.eqb (Group lc) "" then (query, countQuery)
    else (GroupQ (Group lc) query, GroupQ (Group lc) countQuery) in
  let '(total, err) := db_count countQuery in
  match err with
  | Some e => mret (inr e)
  | None =>
      let filterDto := GetBase filter in
      let query := match Pagination filterDto with
                   | Some false => query
                   | _ => Paginate (Page filterDto) (PerPage filterDto) query
                   end in
      let '(entities, err) := db_find query in
      match err with
      | Some e => mret (inr e)
      | None => mret (inl (total, entities))
      end
  end.

(** [Count] *)
Definition Count (r : GormRepository) (conditions : Conditions) : M (Z * option DbError) :=
  let* query := BuildQueryConditions r conditions (Config r) in
  mret (db_count query).

(** [Exists] *)
Definition Exists (r : GormRepository) (conditions : Conditions) : M (bool * option DbError) :=
  let* res := Count r conditions in
  match res with
  | (_, Some e) => mret (false, Some e)
  | (count, None) => mret ((0 <? count)%Z, None)
  end.

(** A call of one of the read operations on the repository. *)
Inductive Op :=
| OpFindOne (conditions : Conditions) (config : option loc)
| OpFindOneByPK (id : val) (config : option loc)
| OpFindByIDs (ids : list val) (config : option loc)
| OpFindAll (conditions : Conditions) (filter : FilterDto) (config : option loc)
| OpFindAllWithPaging (conditions : Conditions) (filter : FilterDto) (config : option loc)
| OpCount (conditions : Conditions)
| OpExists (conditions : Conditions)
| OpQueryBuilder (filter : FilterDto) (config : option loc).

(** The store an operation leaves behind (a panic ends that call only). *)
Definition run_op (r : GormRepository) (lang : string) (op : Op) (st : store) : store :=
  match op with
  | OpFindOne c cfg => snd (FindOne r c cfg lang st)
  | OpFindOneByPK id cfg => snd (FindOneByPK r id cfg lang st)
  | OpFindByIDs ids cfg => snd (FindByIDs r ids cfg lang st)
  | OpFindAll c f cfg => snd (FindAll r c f cfg lang st)
  | OpFindAllWithPaging c f cfg => snd (FindAllWithPaging r c f cfg lang st)
  | OpCount c => snd (Count r c st)
  | OpExists c => snd (Exists r c st)
  | OpQueryBuilder f cfg => snd (QueryBuilder r f cfg st)
  end.

Fixpoint run_ops (r : GormRepository) (lang : string) (ops : list Op) (st : store) : store :=
  match ops with
  | [] => st
  | op :: rest => run_ops r lang rest (run_op r lang op st)
  end.

End Backend.

End Operations.

(** ** Identity-returning writes: [Create] and [CreateOrUpdate]

    An entity is a struct value seen through [reflect]: its fields with
    their [reflect.Kind] and value. The backend insert writes field values
    back into the struct (the generated key, defaults); it cannot change
    the struct's fields or their kinds. The list of backend calls issued
    is returned with the result. *)

Module Identity.
Import Operations.

Inductive Kind :=
| KString | KBool | KInt | KInt8 | KInt16 | KInt32 | KInt64
| KUint | KUint8 | KUint16 | KUint32 | KUint64 | KFloat32 | KFloat64
| KStruct | KPtr | KSlice | KMap | KInterface.

Scheme Equality for Kind.

Record Field := { FName : string; FKind : Kind; FValue : val }.

Abbreviation Entity := (list Field).

(** The [createDto any] argument: a [T] or a value of another type. *)
Inductive AnyDto :=
| DtoT (e : Entity)
| DtoOther.

(** [clause.OnConflict]: conflict columns, and either [DoUpdates] on the
    listed columns or [UpdateAll]. *)
Record OnConflict := {
  OnColumns : list string;
  DoUpdates : list string;
  UpdateAll : bool
}.

Inductive Call :=
| CallCreate (e : Entity)
| CallCreateOnConflict (oc : OnConflict) (e : Entity).

Inductive CreateError :=
| ErrInvalidType
| ErrIDFieldNotFound
| ErrUnsupportedIDType (k : Kind)
| ErrDb (e : DbError).

(** [val.FieldByName(name)] *)
Definition FieldByName (e : Entity) (name : string) : option Field :=
  List.find (fun f => String.eqb (FName f) name) e.

(** The backend writing [writes] into the struct: only values change. *)
Definition write_back (e : Entity) (writes : list (string * val)) : Entity :=
  map (fun f => match List.find (fun w => String.eqb w.1 (FName f)) writes with
                | Some (_, v) => {| FName := FName f; FKind := FKind f; FValue := v |}
                | None => f
                end) e.

(** The [idField := val.FieldByName("ID")] block and its [switch
    idField.Kind()], written out identically in [Create] and
    [CreateOrUpdate]. *)
Definition extract_id (e : Entity) : val + CreateError :=
  match FieldByName e "ID" with
  | None => inr ErrIDFieldNotFound
  | Some f =>
      match FKind f with
      | KString | KInt | KInt64 | KUint | KUint64 => inl (FValue f)
      | k => inr (ErrUnsupportedIDType k)
      end
  end.

Section Backend.
Variable db_create : Entity -> list (string * val) + DbError.
Variable db_create_on_conflict : OnConflict -> Entity -> list (string * val) + DbError.

(** [Create] *)
Definition Create (createDto : AnyDto) : list Call * (val + CreateError) :=
  match createDto with
  | DtoOther => ([], inr ErrInvalidType)
  | DtoT entity =>
      match db_create entity with
      | inr err => ([CallCreate entity], inr (ErrDb err))
      | inl writes => ([CallCreate entity], extract_id (write_back entity writes))
      end
  end.

(** [CreateOrUpdate] *)
Definition CreateOrUpdate (entity : AnyDto) (conflictColumns updateColumns : list string)
  : list Call * (val + CreateError) :=
  match entity with
  | DtoOther => ([], inr ErrInvalidType)
  | DtoT typedEntity =>
      let onConflict :=
        {| OnColumns := conflictColumns;
           DoUpdates := updateColumns;
           UpdateAll := match updateColumns with [] => true | _ => false end |} in
      match db_create_on_conflict onConflict typedEntity with
      | inr err => ([CallCreateOnConflict onConflict typedEntity], inr (ErrDb err))
      | inl writes => ([CallCreateOnConflict onConflict typedEntity],
                       extract_id (write_back typedEntity writes))
      end
  end.

End Backend.

End Identity.

(** ** Writes, lookups by key and [GormConditionBuilder]
    ([repositories/gorm.repository.go])

    A write is recorded as the statement handed to the backend: the
    [*gorm.DB] chain it runs on and the finishing call. The backend's
    answers are parameters, as for the read operations. *)

Module Writes.
Import ConditionBuilder Configs Dto Gorm Store Repository Operations.

(** [GormConditionBuilder]: the ["query"]/["args"] map as a pair. *)
Definition GormConditionBuilder (conditions : list QueryField.GormQueryField)
  : string * list val :=
  let '(queryStrings, queryValues) :=
    fold_left
      (fun '(queryStrings, queryValues) condition =>
         let operation := if String.eqb (QueryField.Operation condition) ""
                          then "=" else QueryField.Operation condition in
         (app queryStrings [QueryField.Column condition +s+ " " +s+ operation +s+ " ?"],
          app queryValues [QueryField.Value condition]))
      conditions ([], []) in
  (String.concat " AND " queryStrings, queryValues).

(** A [map[string]any{"query": q, "args": args}] passed as [conditions any]. *)
Definition ConditionsMap (m : string * list val) : Conditions :=
  CondMap (Some (VStr m.1)) (Some (VList m.2)).

(** The finishing call of a statement, with the chain it runs on. *)
Inductive Stmt :=
| SUpdates (q : Query) (updateDto : val)
| SUpdateColumns (q : Query) (columns : list (string * val))
| SUpdateColumn (q : Query) (column : string) (value : val)
| SDelete (q : Query)
| SCreate (createDto : list val)
| SFindIDs (q : Query)
| SPluck (q : Query) (column : string).

Section Backend.
Variable db_write : Stmt -> option DbError.
Variable db_ids : Query -> list string * option DbError.
Variable db_pluck : Query -> string -> list val * option DbError.

(** [BulkCreate] *)
Definition BulkCreate (createDto : list val) : list Stmt * (list string * option DbError) :=
  let create := SCreate createDto in
  match db_write create with
  | Some err => ([create], ([], Some err))
  | None =>
      let q := SelectQ "id" NewQuery in
      let '(ids, err) := db_ids q in
      match err with
      | Some e => ([create; SFindIDs q], ([], Some e))
      | None => ([create; SFindIDs q], (ids, None))
      end
  end.

(** [UpdateByPK] *)
Definition UpdateByPK (id updateDto : val) : list Stmt * option DbError :=
  let s := SUpdates (WhereQ "id = ?" [id] NewQuery) updateDto in
  ([s], db_write s).

(** [Update]: the chain of [BuildQueryConfig] with a nil configuration. *)
Definition Update (r : GormRepository) (conditions : Conditions) (updateDto : val)
    (lang : string) : M (list Stmt * option DbError) :=
  let* query := BuildQueryConfig r conditions None lang in
  let s := SUpdates query updateDto in
  mret ([s], db_write s).

(** [DeleteOneByPK] *)
Definition DeleteOneByPK (id : val) : list Stmt * option DbError :=
  let s := SDelete (WhereQ "id = ?" [id] NewQuery) in
  ([s], db_write s).

(** [DeleteByIDs] *)
Definition DeleteByIDs (ids : list val) : list Stmt * option DbError :=
  let s := SDelete (WhereQ "id IN (?)" [VList ids] NewQuery) in
  ([s], db_write s).

(** [Pluck] *)
Definition Pluck (r : GormRepository) (column : string) (conditions : Conditions)
  : M (list Stmt * (list val * option DbError)) :=
  let* query := BuildQueryConditions r conditions (Config r) in
  mret ([SPluck query column], db_pluck query column).

(** [UpdateColumnsByPK]; the map's entries as a list. *)
Definition UpdateColumnsByPK (id : val) (columns : list (string * val))
  : list Stmt * option DbError :=
  let s := SUpdateColumns (WhereQ "id = ?" [id] NewQuery) columns in
  ([s], db_write s).

(** [Restore] *)
Definition Restore (id : val) : list Stmt * option DbError :=
  let s := SUpdateColumn (WhereQ "id = ?" [id] (UnscopedQ NewQuery)) "deleted_at" VNil in
  ([s], db_write s).

(** [RestoreByConditions]; the [args] type assertion panics as in
    [BuildQueryConditions]. *)
Definition RestoreByConditions (conditions : Conditions)
  : outcome (list Stmt * option DbError) :=
  let conditions :=
    match conditions with
    | CondPtr c => let '(q, a) := Build c in CondMap (Some (VStr q)) (Some (VList a))
    | other => other
    end in
  let query := UnscopedQ NewQuery in
  let finish query := let s := SUpdateColumn query "deleted_at" VNil in Ret ([s], db_write s) in
  match conditions with
  | CondMap (Some (VStr q)) args =>
      if String.eqb q "" then finish query
      else match args with
           | Some (VList queryArgs) => finish (WhereQ q queryArgs query)
           | _ => Panic "interface conversion: interface {} is not []interface {}"
           end
  | _ => finish query
  end.

End Backend.

Section Counting.
Variable db_count : Query -> Z * option DbError.

(** [ExistsByPK] *)
Definition ExistsByPK (r : GormRepository) (id : val) : M (bool * option DbError) :=
  Exists db_count r (CondPtr (Some (Eq "id" id))).

End Counting.

End Writes.

(** ** Binding a listing request ([dto/base_filter_dto.go]) *)

Module Binding.
Import Dto.

(** [c.Query(key, defaultValue)] over the request's query parameters: the
    first value given for [key], or [defaultValue] when it is absent or
    empty. *)
Definition QueryParam (params : list (string * string)) (key defaultValue : string) : string :=
  match List.find (fun kv => String.eqb kv.1 key) params with
  | Some (_, v) => if String.eqb v "" then defaultValue else v
  | None => defaultValue
  end.

(** [strconv.NumError]'s cause. *)
Inductive NumError := ErrSyntax | ErrRange.

Definition digit (c : ascii) : option Z :=
  let n := nat_of_ascii c in
  if (48 <=? n)%nat && (n <=? 57)%nat then Some (Z.of_nat (n - 48)) else None.

Definition maxUint64 : Z := (2 ^ 64 - 1)%Z.

(** The digit loop of [strconv.ParseUint(s, 10, 64)]. *)
Fixpoint parse_uint_loop (s : string) (n : Z) : Z * option NumError :=
  match s with
  | EmptyString => (n, None)
  | String c rest =>
      match digit c with
      | None => (0%Z, Some ErrSyntax)
      | Some d =>
          if (maxUint64 / 10 + 1 <=? n)%Z then (maxUint64, Some ErrRange)
          else
            let n1 := (n * 10 + d)%Z in
            if (maxUint64 <? n1)%Z then (maxUint64, Some ErrRange)
            else parse_uint_loop rest n1
      end
  end.

(** [strconv.ParseUint(s, 10, 64)] *)
Definition ParseUint (s : string) : Z * option NumError :=
  match s with
  | EmptyString => (0%Z, Some ErrSyntax)
  | _ => parse_uint_loop s 0
  end.

(** [strconv.ParseInt(s, 10, 64)] *)
Definition ParseInt (s : string) : Z * option NumError :=
  match s with
  | EmptyString => (0%Z, Some ErrSyntax)
  | String c rest =>
      let '(neg, s') :=
        if Ascii.eqb c "+" then (false, rest)
        else if Ascii.eqb c "-" then (true, rest) else (false, s) in
      let '(un, err) := ParseUint s' in
      match err with
      | Some ErrSyntax => (0%Z, Some ErrSyntax)
      | _ =>
          if negb neg && (2 ^ 63 <=? un)%Z then ((2 ^ 63 - 1)%Z, Some ErrRange)
          else if neg && (2 ^ 63 <? un)%Z then ((- 2 ^ 63)%Z, Some ErrRange)
          else ((if neg then - un else un)%Z, None)
      end
  end.

(** The digit loop of the fast path of [strconv.Atoi]. *)
Fixpoint atoi_fast_loop (s : string) (n : Z) : option Z :=
  match s with
  | EmptyString => Some n
  | String c rest =>
      match digit c with
      | None => None
      | Some d => atoi_fast_loop rest (n * 10 + d)%Z
      end
  end.

(** [strconv.Atoi] on a 64-bit platform: the fast path for fewer than 19
    bytes, [ParseInt(s, 10, 0)] otherwise. *)
Definition Atoi (s : string) : Z * option NumError :=
  if (0 <? String.length s)%nat && (String.length s <? 19)%nat then
    match s with
    | EmptyString => (0%Z, Some ErrSyntax)
    | String c rest =>
        let '(neg, s') :=
          if Ascii.eqb c "-" then (true, rest)
          else if Ascii.eqb c "+" then (false, rest) else (false, s) in
        if (String.length s' <? 1)%nat then (0%Z, Some ErrSyntax)
        else match atoi_fast_loop s' 0 with
             | None => (0%Z, Some ErrSyntax)
             | Some n => ((if neg then - n else n)%Z, None)
             end
    end
  else ParseInt s.

(** [f.BindQuery(c)]: the fields it sets; the others keep their value. *)
Definition BindQuery (f : BaseFilterDto) (params : list (string * string)) : BaseFilterDto :=
  let page := fst (Atoi (QueryParam params "page" "1")) in
  let perPage := fst (Atoi (QueryParam params "per_page" "10")) in
  let pagination :=
    let v := QueryParam params "pagination" "" in
    if String.eqb v "" then Pagination f else Some (String.eqb (ToLower v) "true") in
  let search :=
    let v := QueryParam params "search" "" in
    if String.eqb v "" then Search f else Some v in
  let sortKey :=
    let v := QueryParam params "sort_key" "" in
    if String.eqb v "" then SortKey f else Some v in
  let sortDir :=
    let v := QueryParam params "sort_dir" "" in
    if String.eqb v "" then SortDir f else Some v in
  {| Page := page; PerPage := perPage; Pagination := pagination; Search := search;
     SortKey := sortKey; SortDir := sortDir |}.

End Binding.

(** ** The update path of the service and controller
    ([services/gorm.service.go], [services/base_crud_service.go],
    [controllers/base_controller.go])

    The repository is reached through the [repositories.BaseRepository]
    interface; a service call returns the repository calls it made with
    its result. *)

Module Services.
Import Configs Store Repository Operations Writes.

(** The methods of [repositories.BaseRepository] the update path calls. *)
Class BaseRepository (T : Type) := {
  RepoUpdateByPK : val -> val -> option DbError;
  RepoFindOneByPK : val -> option loc -> option T * option DbError;
  RepoCount : Conditions -> Z * option DbError
}.

Inductive RepoCall :=
| CallUpdateByPK (id updateDto : val)
| CallFindOneByPK (id : val) (config : option loc)
| CallCount (conditions : Conditions).

(** [err.Error()] *)
Definition ErrorString (e : DbError) : string :=
  match e with
  | ErrRecordNotFound => "record not found"
  | ErrBackend msg => msg
  end.

Section Service.
Context {T : Type} `{BaseRepository T}.

(** [BaseCrudService.Update] *)
Definition BaseUpdate (id updateDto : val) (config : option loc)
  : list RepoCall * (option T * option DbError) :=
  match RepoUpdateByPK id updateDto with
  | Some err => ([CallUpdateByPK id updateDto], (None, Some err))
  | None => ([CallUpdateByPK id updateDto; CallFindOneByPK id config],
             RepoFindOneByPK id config)
  end.

(** [GormCrudService.Update]: the existence check by [Count] on
    [GormConditionBuilder([{Column: "id", Value: id}])]. *)
Definition GormUpdate (id updateDto : val) (config : option loc)
  : list RepoCall * (option T * option DbError) :=
  let conditions := ConditionsMap (GormConditionBuilder
                      [{| QueryField.Operation := ""; QueryField.Column := "id";
                          QueryField.Value := id |}]) in
  let '(count, err) := RepoCount conditions in
  match err with
  | Some e => ([CallCount conditions], (None, Some e))
  | None =>
      if (count =? 0)%Z then ([CallCount conditions], (None, None))
      else let '(calls, res) := BaseUpdate id updateDto config in
           (CallCount conditions :: calls, res)
  end.

(** The response a handler sends: a JSON body or a [*fiber.Error]. *)
Inductive Response :=
| RespJSON (item : T)
| RespError (code : Z) (message : string).

(** [BaseCrudController.Update] from step 4 on; [entity] is the outcome of
    steps 1 to 3 (parsing, validation, mapping): the entity or the error
    they return. *)
Definition UpdateHandler (id : string) (entity : val + (Z * string))
  : list RepoCall * Response :=
  match entity with
  | inr (code, msg) => ([], RespError code msg)
  | inl e =>
      let '(calls, (item, err)) := GormUpdate (VStr id) e None in
      match err with
      | Some err => (calls, RespError 500 (ErrorString err))
      | None =>
          match item with
          | None => (calls, RespError 404 "item_not_found")
          | Some it => (calls, RespJSON it)
          end
      end
  end.

End Service.

End Services.

(** ** Concrete configurations used by the examples *)

Module Fixtures.
Import Configs Dto Store Repository.

Definition users_config : GormConfig :=
  {| Filterable := ∅; Searchable := ["name"; "email"]; DefaultSort := "created_at";
     SelectHandler := None; Preloads := []; Joins := ""; UnScoped := false;
     Group := ""; ListSelectHandler := None; ListPreloads := None |}.

Definition users_repo : GormRepository := {| Config := Some 1%positive; TableName := "users" |}.

Definition users_store : store := {[1%positive := users_config]}.

Definition base_request (search sortKey sortDir : option string) : BaseFilterDto :=
  {| Page := 1; PerPage := 10; Pagination := None; Search := search;
     SortKey := sortKey; SortDir := sortDir |}.

Definition request (base : BaseFilterDto) (entries : list (string * val)) : FilterDto :=
  {| GetBase := base; ToMap := inl entries |}.

(** A configuration with both the single-record and the list-only select
    handlers and preloads set. *)
Definition profile_preload : Preload.GormPreloadConfig :=
  {| Preload.Relation := "Profile"; Preload.UnScoped := false; Preload.SelectHandler := None |}.
Definition orders_preload : Preload.GormPreloadConfig :=
  {| Preload.Relation := "Orders"; Preload.UnScoped := false; Preload.SelectHandler := None |}.

Definition list_config : GormConfig :=
  {| Filterable := ∅; Searchable := []; DefaultSort := "";
     SelectHandler := Some (fun _ => [{| Column := "id"; Alias := "" |}]);
     Preloads := [profile_preload]; Joins := ""; UnScoped := false; Group := "";
     ListSelectHandler := Some (fun _ => [{| Column := "name"; Alias := "n" |}]);
     ListPreloads := Some [orders_preload] |}.

Definition list_store : store := {[1%positive := list_config]}.

End Fixtures.

(** ** Auxiliary definitions used in the statements *)

Module Specs.
Import ConditionBuilder Configs Dto Gorm Store Repository Operations Identity Fixtures.

(** The segments and arguments accumulated by the loop of [compile]. *)
Definition segments (c : Condition) : list string :=
  fst (compile_loop compile 0 (parts c) [] []).
Definition cargs (c : Condition) : list val :=
  snd (compile_loop compile 0 (parts c) [] []).

(** The fragment a nested group contributes: parenthesized exactly when the
    group has more than one part. *)
Definition wrap_group (g : Condition) : string :=
  if (1 <? length (parts g))%nat then "(" +s+ fst (compile g) +s+ ")"
  else fst (compile g).

(** What composing [c] with [g] by connective [conn] appends to the
    segments and to the arguments: nothing when [g] compiles to the empty
    fragment, otherwise the connective (unless [c] has no part yet) and
    the wrapped fragment, and [g]'s arguments. *)
Definition emitted (conn : string) (c g : Condition) : list string :=
  if String.eqb (fst (compile g)) "" then []
  else app (match parts c with [] => [] | _ => [conn] end) [wrap_group g].
Definition emitted_args (g : Condition) : list val :=
  if String.eqb (fst (compile g)) "" then [] else snd (compile g).

(** A key absent from [Filterable]. *)
Definition present (fl : gmap string GormFilterProperty) (kv : string * val) : bool :=
  match fl !! kv.1 with Some _ => true | None => false end.

(** *** Computations that only read existing configurations

    [preserves m]: every cell of the store is still there, with the same
    configuration, after [m] (new cells may have been allocated). *)
Definition preserves {A} (m : M A) : Prop := forall st, st ⊆ snd (m st).

(** The search group for the searchable columns [cols] and term [term]. *)
Definition search_fragment (cols : list string) : string :=
  "(" +s+ String.concat " OR " (map (fun c => "lower(" +s+ c +s+ ") LIKE ?") cols) +s+ ")".
Definition search_args (cols : list string) (term : string) : list val :=
  map (fun _ => VStr ("%" +s+ ToLower term +s+ "%")) cols.

(** The operator kinds of the specification with the SQL text following the
    target column; [regex] is the case-insensitive contains. *)
Definition comparison_kinds : list (string * string) :=
  [("equal", " = ?"); ("in", " IN (?)"); ("not_in", " NOT IN (?)"); ("lt", " < ?");
   ("gt", " > ?"); ("lte", " <= ?"); ("gte", " >= ?")].

Definition target_column (key : string) (prop : GormFilterProperty) : string :=
  if String.eqb (ColumnName prop) "" then key else ColumnName prop.

(** What one filter entry [(key, value)] followed by [rest] does. *)
Definition entry_effect (fl : gmap string GormFilterProperty) (key : string) (value : val)
    (rest : list (string * val)) (s : list string) (v : list val) : Prop :=
  let run := filter_loop fl ((key, value) :: rest) s v in
  match fl !! key with
  | None => run = filter_loop fl rest s v
  | Some prop =>
      let column := target_column key prop in
      match List.find (fun kd => String.eqb kd.1 (FilterType prop)) comparison_kinds with
      | Some (_, sql) => run = filter_loop fl rest (app s [column +s+ sql]) (app v [value])
      | None =>
          if String.eqb (FilterType prop) "regex" then
            match value with
            | VStr str =>
                run = filter_loop fl rest (app s ["lower(" +s+ column +s+ ") LIKE ?"])
                                          (app v [VStr ("%" +s+ ToLower str +s+ "%")])
            | _ => True
            end
          else run = filter_loop fl rest s v
      end
  end.

(** The ORDER BY key and direction of a listing query. *)
Definition sort_key (fd : BaseFilterDto) (cfg : GormConfig) : string :=
  match SortKey fd with
  | Some k => k
  | None => if String.eqb (DefaultSort cfg) "" then "created_at" else DefaultSort cfg
  end.
Definition sort_dir (fd : BaseFilterDto) : string :=
  match SortDir fd with Some d => ToLower d | None => "desc" end.

Definition first_none (_ : Query) : nat * option DbError := (0, Some ErrRecordNotFound).

Definition find_none (_ : Query) : list nat * option DbError := ([], None).
Definition count_zero (_ : Query) : Z * option DbError := (0%Z, None).

(** The configuration error the identifier of an entity type raises, if
    any: no [ID] field, or a kind other than [string], [int], [int64],
    [uint], [uint64]. *)
Definition id_field_error (e : Entity) : option CreateError :=
  match FieldByName e "ID" with
  | None => Some ErrIDFieldNotFound
  | Some f =>
      if existsb (Kind_beq (FKind f)) [KString; KInt; KInt64; KUint; KUint64] then None
      else Some (ErrUnsupportedIDType (FKind f))
  end.

Definition float_entity : Entity := [{| FName := "ID"; FKind := KFloat64; FValue := VNil |}].
Definition int_entity : Entity := [{| FName := "ID"; FKind := KInt64; FValue := VNil |}].
Definition insert_ok (_ : Entity) : list (string * val) + DbError := inl [("ID", VInt 1)].
Definition upsert_ok (_ : OnConflict) (_ : Entity) : list (string * val) + DbError :=
  inl [("ID", VInt 1)].

(** The number of [?] placeholders in a fragment. *)
Fixpoint count_q (s : string) : nat :=
  match s with
  | EmptyString => 0
  | String c rest => (if Ascii.eqb c "?"%char then 1 else 0) + count_q rest
  end.

(** Conditions built with the constructors and [And]/[Or], on columns
    without [?] and with [Raw] fragments holding one [?] per argument. *)
Inductive built : Condition -> Prop :=
| built_Eq col v : count_q col = 0 -> built (Eq col v)
| built_NotEq col v : count_q col = 0 -> built (NotEq col v)
| built_Gt col v : count_q col = 0 -> built (Gt col v)
| built_Gte col v : count_q col = 0 -> built (Gte col v)
| built_Lt col v : count_q col = 0 -> built (Lt col v)
| built_Lte col v : count_q col = 0 -> built (Lte col v)
| built_In col v : count_q col = 0 -> built (In col v)
| built_NotIn col v : count_q col = 0 -> built (NotIn col v)
| built_Like col p : count_q col = 0 -> built (Like col p)
| built_ILike col p : count_q col = 0 -> built (ILike col p)
| built_Contains col p : count_q col = 0 -> built (Contains col p)
| built_StartsWith col p : count_q col = 0 -> built (StartsWith col p)
| built_EndsWith col p : count_q col = 0 -> built (EndsWith col p)
| built_IsNull col : count_q col = 0 -> built (IsNull col)
| built_IsNotNull col : count_q col = 0 -> built (IsNotNull col)
| built_Between col lo hi : count_q col = 0 -> built (Between col lo hi)
| built_NotBetween col lo hi : count_q col = 0 -> built (NotBetween col lo hi)
| built_Raw frag args : count_q frag = length args -> built (Raw frag args)
| built_And c o : built c -> (forall g, o = Some g -> built g) -> built (And c o)
| built_Or c o : built c -> (forall g, o = Some g -> built g) -> built (Or c o).

(** Every part's connector is free of [?], every leaf holds one [?] per
    argument, and every nested group is so too. *)
Fixpoint cond_ok (c : Condition) : bool :=
  match c with
  | Cond ps =>
      (fix parts_ok (ps : list conditionPart) : bool :=
         match ps with
         | [] => true
         | Part conn frag args grp :: rest =>
             Nat.eqb (count_q conn) 0 &&
             match grp with
             | Some g => cond_ok g
             | None => Nat.eqb (count_q frag) (length args)
             end && parts_ok rest
         end) ps
  end.

(** The leaf [GormConditionBuilder] writes for one field, as a [Raw]
    condition. *)
Definition field_leaf (f : QueryField.GormQueryField) : Condition :=
  Raw (QueryField.Column f +s+ " " +s+
       (if String.eqb (QueryField.Operation f) "" then "=" else QueryField.Operation f)
       +s+ " ?") [QueryField.Value f].

(** The conditions on which [BuildQueryConditions] fails its [args] type
    assertion: a map whose ["query"] is a non-empty string and whose
    ["args"] is not a [[]any]. *)
Definition bad_args (c : Conditions) : bool :=
  match c with
  | CondMap (Some (VStr q)) args =>
      negb (String.eqb q "") && match args with Some (VList _) => false | _ => true end
  | _ => false
  end.

(** The WHERE clauses [BuildQueryConditions] adds for [c], when it does not
    panic. *)
Definition conditions_where (c : Conditions) : list (string * list val) :=
  match c with
  | CondPtr co => let '(q, a) := Build co in if String.eqb q "" then [] else [(q, a)]
  | CondMap (Some (VStr q)) (Some (VList a)) => if String.eqb q "" then [] else [(q, a)]
  | _ => []
  end.

(** The chain a statement runs on. *)
Definition stmt_query (s : Writes.Stmt) : option Query :=
  match s with
  | Writes.SUpdates q _ | Writes.SUpdateColumns q _ | Writes.SUpdateColumn q _ _
  | Writes.SDelete q | Writes.SFindIDs q | Writes.SPluck q _ => Some q
  | Writes.SCreate _ => None
  end.

(** The SELECT a configuration handler gives for [lang]. *)
Definition handler_select (h : option (string -> list GormSelectField)) (lang : string)
  : option string :=
  match h with Some h => Some (select_clauses (h lang)) | None => None end.

(** The response of a paginated listing from the backend's answers to the
    count query and to the data query. *)
Definition paging_result {E : Type} (count : Z * option DbError) (find : list E * option DbError)
  : outcome ((Z * list E) + DbError) :=
  let '(total, err) := count in
  match err with
  | Some e => Ret (inr e)
  | None =>
      let '(entities, err) := find in
      match err with
      | Some e => Ret (inr e)
      | None => Ret (inl (total, entities))
      end
  end.

(** The response of a single-record lookup from the backend's answer. *)
Definition first_result {E : Type} (first : E * option DbError)
  : outcome (option E * option DbError) :=
  let '(model, err) := first in
  match err with
  | Some ErrRecordNotFound => Ret (None, None)
  | _ => Ret (Some model, err)
  end.

(** The chain [BuildQueryConditions] builds on configuration [cfg]: the
    configuration's join, if any, and the WHERE clauses of [c]. *)
Definition cond_query (cfg : GormConfig) (c : Conditions) : Query :=
  {| q_joins := if String.eqb (Joins cfg) "" then [] else [Joins cfg];
     q_where := conditions_where c; q_select := None; q_preloads := [];
     q_unscoped := false; q_order := []; q_group := []; q_offset := None;
     q_limit := None |}.

(** The chain [BuildQueryConfig] builds on configuration [cfg]. *)
Definition config_query (cfg : GormConfig) (lang : string) (c : Conditions) : Query :=
  let q := cond_query cfg c in
  let q := match SelectHandler cfg with
           | Some h => SelectQ (select_clauses (h lang)) q
           | None => q
           end in
  let q := apply_preloads lang (Preloads cfg) q in
  if UnScoped cfg then UnscopedQ q else q.

(** Searchable columns and filter target columns hold no [?]. *)
Definition columns_plain (cfg : GormConfig) : bool :=
  forallb (fun s => Nat.eqb (count_q s) 0) (Searchable cfg) &&
  forallb (fun kp => Nat.eqb (count_q (target_column kp.1 kp.2)) 0)
          (map_to_list (Filterable cfg)).

(** The numeric value of a string of decimal digits, most significant
    first; [None] when a byte is not a digit. *)
Fixpoint decimal_value (s : string) : option Z :=
  match s with
  | EmptyString => Some 0%Z
  | String c rest =>
      let n := nat_of_ascii c in
      if (48 <=? n)%nat && (n <=? 57)%nat then
        match decimal_value rest with
        | Some v => Some (Z.of_nat (n - 48) * 10 ^ Z.of_nat (String.length rest) + v)%Z
        | None => None
        end
      else None
  end.

(** The hypothesis on a part's nested group in the induction on conditions:
    a well-formed group compiles to as many [?] as arguments. *)
Definition group_hyp (p : conditionPart) : Prop :=
  match p with
  | Part _ _ _ (Some g) =>
      cond_ok g = true -> count_q (fst (compile g)) = length (snd (compile g))
  | Part _ _ _ None => True
  end.

End Specs.

(** ** Properties of the condition builder *)

Module ConditionBuilderFacts.
Import ConditionBuilder Specs.

Lemma compile_segments (c : Condition) :
  compile c = (String.concat " " (segments c), cargs c).
Proof.
  destruct c as [[|p ps]]; [reflexivity|].
  unfold segments, cargs; simpl parts.
  change (compile (Cond (p :: ps))) with
    (let '(segments, allArgs) := compile_loop compile 0 (p :: ps) [] [] in
     (String.concat " " segments, allArgs)).
  destruct (compile_loop compile 0 (p :: ps) [] []); reflexivity.
Qed.

Lemma compile_loop_app rec i ps qs s a :
  compile_loop rec i (app ps qs) s a =
  let '(s', a') := compile_loop rec i ps s a in
  compile_loop rec (i + length ps) qs s' a'.
Proof.
  revert i s a. induction ps as [|[conn frag pargs [g|]] ps IH]; intros i s a.
  - simpl. now rewrite Nat.add_0_r.
  - simpl. destruct (rec g) as [f ga].
    destruct (String.eqb f "");
      rewrite IH; replace (i + S (length ps))%nat with (S i + length ps)%nat by lia;
      reflexivity.
  - simpl. rewrite IH.
    replace (i + S (length ps))%nat with (S i + length ps)%nat by lia; reflexivity.
Qed.

Lemma compose_loop (conn : string) (c g : Condition) :
  compile_loop compile 0 (app (parts c) [Part conn "" [] (Some g)]) [] [] =
  (app (segments c) (if String.eqb (fst (compile g)) "" then []
                     else app (if (0 <? length (parts c))%nat && negb (String.eqb conn "")
                               then [conn] else []) [wrap_group g]),
   app (cargs c) (emitted_args g)).
Proof.
  rewrite compile_loop_app. unfold segments, cargs, emitted_args, wrap_group.
  destruct (compile_loop compile 0 (parts c) [] []) as [s a]; simpl.
  destruct (compile g) as [f ga]; simpl.
  destruct (String.eqb f ""); simpl; [now rewrite !app_nil_r|].
  destruct (_ && _); simpl; try reflexivity; now rewrite <- !app_assoc.
Qed.

Lemma compile_compose (conn : string) (c g : Condition) :
  conn <> "" ->
  compile (Cond (app (parts c) [Part conn "" [] (Some g)])) =
  (String.concat " " (app (segments c) (emitted conn c g)),
   app (cargs c) (emitted_args g)).
Proof.
  intros Hconn. rewrite compile_segments. unfold segments at 1, cargs at 1.
  simpl parts. rewrite compose_loop. unfold emitted.
  destruct (String.eqb (fst (compile g)) ""); [reflexivity|].
  apply String.eqb_neq in Hconn. rewrite Hconn.
  destruct (parts c); reflexivity.
Qed.

End ConditionBuilderFacts.

(** ** Properties of the repository model *)

Module RepositoryFacts.
Import ConditionBuilder Configs Dto Gorm Store Repository Specs.

Lemma filter_loop_acc (fl : gmap string GormFilterProperty) (result : list (string * val))
    (s0 : list string) (v0 : list val) :
  filter_loop fl result s0 v0 =
  match filter_loop fl result [] [] with
  | Ret (s, v) => Ret (app s0 s, app v0 v)
  | Panic e => Panic e
  end.
Proof.
  revert s0 v0. induction result as [|[key value] rest IH]; intros s0 v0.
  - simpl. now rewrite !app_nil_r.
  - simpl. destruct (fl !! key) as [prop|]; [|apply IH].
    destruct (filter_leaf _ _ value) as [[[frag v]|]|e]; [|apply IH|reflexivity].
    rewrite (IH (app s0 [frag])), (IH [frag] [v]).
    destruct (filter_loop fl rest [] []) as [[s v']|e]; [|reflexivity].
    simpl. now rewrite <- !app_assoc.
Qed.

Lemma filter_loop_drop_absent (fl : gmap string GormFilterProperty)
    (result : list (string * val)) (s : list string) (v : list val) :
  filter_loop fl result s v = filter_loop fl (List.filter (present fl) result) s v.
Proof.
  revert s v. induction result as [|[key value] rest IH]; intros s v; [reflexivity|].
  unfold present at 1. simpl.
  destruct (fl !! key) as [prop|] eqn:Hk; simpl; rewrite ?Hk; [|apply IH].
  destruct (filter_leaf _ _ value) as [[[frag a]|]|e]; [apply IH|apply IH|reflexivity].
Qed.

(** *** Computations that only read existing configurations *)

Lemma mret_pres {A} (a : A) : preserves (mret a).
Proof. intros st. simpl. reflexivity. Qed.

Lemma mpanic_pres {A} (msg : string) : preserves (@mpanic A msg).
Proof. intros st. simpl. reflexivity. Qed.

Lemma deref_pres (p : option loc) : preserves (deref p).
Proof.
  intros st. unfold deref. destruct p as [l|]; [destruct (st !! l)|]; simpl; reflexivity.
Qed.

Lemma alloc_pres (cfg : GormConfig) : preserves (alloc cfg).
Proof.
  intros st. simpl. apply insert_subseteq.
  apply not_elem_of_dom. apply is_fresh.
Qed.

Lemma alloc_fresh (cfg : GormConfig) (st : store) :
  match fst (alloc cfg st) with Ret l => st !! l = None | Panic _ => True end.
Proof. simpl. apply not_elem_of_dom. apply is_fresh. Qed.

Lemma mbind_pres {A B} (m : M A) (k : A -> M B) :
  preserves m -> (forall a, preserves (k a)) -> preserves (mbind m k).
Proof.
  intros Hm Hk st. unfold mbind. specialize (Hm st).
  destruct (m st) as [[a|e] st']; simpl in *; [|exact Hm].
  transitivity st'; [exact Hm | apply Hk].
Qed.

Create HintDb pres.
#[local] Hint Resolve mret_pres mpanic_pres deref_pres alloc_pres : pres.

Ltac pres :=
  repeat match goal with
  | |- preserves (mbind _ _) => apply mbind_pres; [|intro]
  | |- preserves (match ?x with _ => _ end) => destruct x
  | |- preserves (if ?b then _ else _) => destruct b
  | |- preserves _ => solve [eauto with pres]
  end.

Lemma BuildQueryConditions_pres r c gc : preserves (BuildQueryConditions r c gc).
Proof. unfold BuildQueryConditions. pres. Qed.
#[local] Hint Resolve BuildQueryConditions_pres : pres.

Lemma BuildQueryConfig_pres r c gc lang : preserves (BuildQueryConfig r c gc lang).
Proof. unfold BuildQueryConfig. pres. Qed.
#[local] Hint Resolve BuildQueryConfig_pres : pres.

Lemma BuildBaseQuery_pres r c f gc lang : preserves (BuildBaseQuery r c f gc lang).
Proof. unfold BuildBaseQuery. pres. Qed.
#[local] Hint Resolve BuildBaseQuery_pres : pres.

Lemma resolveListConfig_pres r gc : preserves (resolveListConfig r gc).
Proof. unfold resolveListConfig. pres. Qed.
#[local] Hint Resolve resolveListConfig_pres : pres.

Lemma QueryBuilder_pres r f gc : preserves (QueryBuilder r f gc).
Proof.
  unfold QueryBuilder. pres.
  intros st. simpl. destruct (filter_loop _ _ _ _) as [[qs vs]|e]; simpl; reflexivity.
Qed.

Lemma resolveListConfig_fresh r gc st :
  match fst (resolveListConfig r gc st) with Ret l => st !! l = None | Panic _ => True end.
Proof.
  unfold resolveListConfig, mbind. destruct (deref _ st) as [[cfg|e] st'] eqn:Hd; [|exact I].
  assert (st' = st) as ->.
  { unfold deref in Hd. destruct (config_ptr r gc) as [l|]; [destruct (st !! l)|];
      congruence. }
  apply alloc_fresh.
Qed.

Lemma deref_weaken (p : option loc) (st st' : store) (cfg : GormConfig) :
  st ⊆ st' -> deref p st = (Ret cfg, st) -> deref p st' = (Ret cfg, st').
Proof.
  intros Hsub Hd. unfold deref in *. destruct p as [l|]; [|discriminate].
  destruct (st !! l) as [c|] eqn:Hl; [|discriminate].
  injection Hd as <-. rewrite (lookup_weaken st st' l c Hl Hsub). reflexivity.
Qed.

Lemma wrap64_small (z : Z) : (- 2 ^ 63 <= z < 2 ^ 63)%Z -> wrap64 z = z.
Proof.
  intros Hz. unfold wrap64.
  rewrite Z.mod_small by lia. lia.
Qed.

End RepositoryFacts.

Module OperationsFacts.
Import ConditionBuilder Configs Dto Gorm Store Repository Operations Specs RepositoryFacts.

Section Backend.
Context {Entity : Type}.
Variable db_first : Query -> Entity * option DbError.
Variable db_find : Query -> list Entity * option DbError.
Variable db_count : Query -> Z * option DbError.

#[local] Hint Resolve BuildQueryConditions_pres BuildQueryConfig_pres BuildBaseQuery_pres
  resolveListConfig_pres QueryBuilder_pres mret_pres mpanic_pres deref_pres alloc_pres : pres.

Lemma run_op_mono r lang op st : st ⊆ run_op db_first db_find db_count r lang op st.
Proof.
  destruct op; simpl;
    match goal with |- _ ⊆ snd (?m st) => enough (preserves m) by auto end;
    unfold FindOne, FindOneByPK, FindByIDs, FindAll, FindAllWithPaging, Exists, Count;
    pres.
Qed.

Lemma run_ops_mono r lang ops st : st ⊆ run_ops db_first db_find db_count r lang ops st.
Proof.
  revert st. induction ops as [|op ops IH]; intros st; simpl; [reflexivity|].
  transitivity (run_op db_first db_find db_count r lang op st);
    [apply run_op_mono | apply IH].
Qed.

End Backend.

End OperationsFacts.

Module IdentityFacts.
Import Operations Identity Specs.

Lemma FieldByName_write_back (e : Entity) (writes : list (string * val)) (name : string) :
  option_map FKind (FieldByName (write_back e writes) name) =
  option_map FKind (FieldByName e name).
Proof.
  induction e as [|f e IH]; [reflexivity|].
  unfold FieldByName in *. simpl.
  destruct (List.find (fun w => String.eqb w.1 (FName f)) writes) as [[k v]|]; simpl;
    destruct (String.eqb (FName f) name); simpl; auto.
Qed.

Lemma extract_id_error (e : Entity) (writes : list (string * val)) (err : CreateError) :
  id_field_error e = Some err -> extract_id (write_back e writes) = inr err.
Proof.
  unfold id_field_error, extract_id. intros H.
  pose proof (FieldByName_write_back e writes "ID") as Hk.
  destruct (FieldByName e "ID") as [f|];
    destruct (FieldByName (write_back e writes) "ID") as [f'|]; simpl in Hk;
    try discriminate; [|congruence].
  injection Hk as Hk. rewrite Hk.
  destruct (FKind f); simpl in H; congruence.
Qed.

Lemma extract_id_ok (e : Entity) (writes : list (string * val)) (f : Field) :
  FieldByName e "ID" = Some f ->
  List.In (FKind f) [KString; KInt; KInt64; KUint; KUint64] ->
  exists f', FieldByName (write_back e writes) "ID" = Some f' /\
             extract_id (write_back e writes) = inl (FValue f').
Proof.
  intros Hf Hk. unfold extract_id.
  pose proof (FieldByName_write_back e writes "ID") as Hw. rewrite Hf in Hw.
  destruct (FieldByName (write_back e writes) "ID") as [f'|]; simpl in Hw; [|discriminate].
  injection Hw as Hw. exists f'. split; [reflexivity|]. rewrite Hw.
  simpl in Hk. destruct Hk as [<-|[<-|[<-|[<-|[<-|[]]]]]]; reflexivity.
Qed.

End IdentityFacts.

Module OrderFacts.
Import ConditionBuilder Configs Dto Gorm Store Repository RepositoryFacts.

Lemma apply_preloads_order lang preloads query :
  q_order (apply_preloads lang preloads query) = q_order query.
Proof.
  unfold apply_preloads. revert query.
  induction preloads as [|p ps IH]; intros query; simpl; [reflexivity|].
  rewrite IH. destruct (Preload.SelectHandler p); reflexivity.
Qed.

Lemma BuildQueryConditions_order r c gc st q :
  fst (BuildQueryConditions r c gc st) = Ret q -> q_order q = [].
Proof.
  unfold BuildQueryConditions, mbind. intros H.
  destruct (deref _ st) as [[cfg|e] st']; simpl in H; [|discriminate].
  repeat (case_match; simplify_eq/=); reflexivity.
Qed.

Lemma BuildQueryConfig_order r c gc lang st q :
  fst (BuildQueryConfig r c gc lang st) = Ret q -> q_order q = [].
Proof.
  unfold BuildQueryConfig, mbind. intros H.
  destruct (deref _ st) as [[cfg|e] st1]; [|discriminate].
  destruct (alloc cfg st1) as [[l|e] st2]; [|discriminate].
  destruct (BuildQueryConditions r c (Some l) st2) as [[q0|e] st3] eqn:HB; [|discriminate].
  simpl in H. injection H as <-.
  assert (q_order q0 = []) as Hq0.
  { apply (BuildQueryConditions_order r c (Some l) st2). now rewrite HB. }
  destruct (UnScoped cfg); simpl; rewrite apply_preloads_order;
    destruct (SelectHandler cfg); simpl; exact Hq0.
Qed.

End OrderFacts.

(** * Claims *)

Module Claims.
Import ConditionBuilder ConditionBuilderFacts Configs Dto Gorm Store Repository
  RepositoryFacts Operations OperationsFacts OrderFacts Identity IdentityFacts Fixtures Specs.

(** C1 (amended). Compiling [c.And(g)] / [c.Or(g)] appends to what [c]
    emits: nothing at all when [g] compiles to the empty fragment (the
    group and its arguments are skipped); otherwise the connective (when
    [c] already has a part) and [g]'s fragment, parenthesized exactly when
    [g] has more than one part and bare otherwise, with [g]'s arguments
    appended after [c]'s. The two examples of the specification hold. *)
Theorem compile_nested_group_emission (c g : Condition) :
  compile (And c (Some g)) =
    (String.concat " " (app (segments c) (emitted "AND" c g)),
     app (cargs c) (emitted_args g)) /\
  compile (Or c (Some g)) =
    (String.concat " " (app (segments c) (emitted "OR" c g)),
     app (cargs c) (emitted_args g)) /\
  Build (Some (And (Eq "a" (VInt 1)) (Some (Eq "b" (VInt 2))))) =
    ("a = ? AND b = ?", [VInt 1; VInt 2]) /\
  Build (Some (And (Eq "a" (VInt 1))
                   (Some (Or (Eq "b" (VInt 2)) (Some (Eq "c" (VInt 3))))))) =
    ("a = ? AND (b = ? OR c = ?)", [VInt 1; VInt 2; VInt 3]).
Proof.
  split; [apply compile_compose; discriminate|].
  split; [apply compile_compose; discriminate|].
  split; reflexivity.
Qed.

(** C1 counterexample. The single-part group [Raw("", 5)] is not inlined
    bare with its argument: [Eq("a",1).And(Raw("", 5))] compiles to
    ["a = ?"] with arguments [[1]], not ["a = ? AND "] with [[1, 5]]. *)
Lemma compile_empty_group_skipped :
  compile (And (Eq "a" (VInt 1)) (Some (Raw "" [VInt 5]))) = ("a = ?", [VInt 1]) /\
  compile (And (Eq "a" (VInt 1)) (Some (Raw "" [VInt 5]))) <>
    ("a = ? AND ", [VInt 1; VInt 5]).
Proof. split; [reflexivity | discriminate]. Qed.

(** C9. A nil right-hand operand of [And] or [Or] returns the receiver with
    its parts unchanged, and the compiled output is unchanged. *)
Theorem compose_nil_noop (c : Condition) :
  And c None = c /\ parts (And c None) = parts c /\ compile (And c None) = compile c /\
  Or c None = c /\ parts (Or c None) = parts c /\ compile (Or c None) = compile c.
Proof. repeat split. Qed.

(** C4 (amended). With a search term and a non-empty [Searchable], the
    compiled predicate starts with one parenthesized OR-group of
    [lower(column) LIKE ?] leaves, one per searchable column, each bound to
    the lowered term between [%]; it is ANDed with the filter leaves, whose
    arguments follow. For [["name"; "email"]] and ["john"] the group is
    ["(lower(name) LIKE ? OR lower(email) LIKE ?)"] with
    [["%john%"; "%john%"]]. *)
Theorem search_or_group (r : GormRepository) (filter : FilterDto) (gc : option loc)
    (st : store) (cfg : GormConfig) (term : string) (result : list (string * val))
    (qs : list string) (vs : list val)
    (Hcfg : deref (config_ptr r gc) st = (Ret cfg, st))
    (Hsearch : Search (GetBase filter) = Some term)
    (Hcols : Searchable cfg <> [])
    (Hmap : ToMap filter = inl result)
    (Hloop : filter_loop (Filterable cfg) result [] [] = Ret (qs, vs)) :
  QueryBuilder r filter gc st =
    (Ret (inl (String.concat " AND " (search_fragment (Searchable cfg) :: qs),
               app (search_args (Searchable cfg) term) vs)), st) /\
  fst (QueryBuilder users_repo (request (base_request (Some "john") None None) [])
         None users_store) =
    Ret (inl ("(lower(name) LIKE ? OR lower(email) LIKE ?)",
              [VStr "%john%"; VStr "%john%"])).
Proof.
  split; [|reflexivity].
  unfold QueryBuilder, mbind. rewrite Hcfg. simpl. rewrite Hsearch.
  unfold search_fragment, search_args.
  destruct (Searchable cfg) as [|c0 cols] eqn:Hc; [congruence|].
  simpl. rewrite Hmap. rewrite filter_loop_acc, Hloop. reflexivity.
Qed.

Lemma search_or_group_witness :
  deref (config_ptr users_repo None) users_store = (Ret users_config, users_store) /\
  QueryBuilder users_repo (request (base_request (Some "john") None None) []) None users_store =
    (Ret (inl (String.concat " AND " (search_fragment ["name"; "email"] :: []),
               app (search_args ["name"; "email"] "john") [])), users_store).
Proof.
  split; [reflexivity|].
  apply (proj1 (search_or_group users_repo (request (base_request (Some "john") None None) [])
                  None users_store users_config "john" [] [] []
                  eq_refl eq_refl ltac:(discriminate) eq_refl eq_refl)).
Defined.

(** C4 counterexample. The search group is spelled with [lower], not with
    the [LOWER(name) LIKE ?] text the claim requires. *)
Lemma search_group_spelling :
  fst (QueryBuilder users_repo (request (base_request (Some "john") None None) [])
         None users_store) <>
    Ret (inl ("(LOWER(name) LIKE ? OR LOWER(email) LIKE ?)",
              [VStr "%john%"; VStr "%john%"])).
Proof. vm_compute. discriminate. Qed.

(** C8 (amended). Entries whose key is absent from [Filterable] are dropped:
    the filter loop gives the same outcome (fragments, arguments, and no
    error) with or without them. An entry whose key is present yields one
    leaf on the target column (the key when no column name is set) when its
    filter type is one of [equal], [in], [not_in], [lt], [gt], [lte],
    [gte], or [regex] with a string value; with any other filter type it
    yields nothing. *)
Theorem unknown_filter_keys_dropped (fl : gmap string GormFilterProperty)
    (result : list (string * val)) (key : string) (value : val)
    (rest : list (string * val)) (s : list string) (v : list val) :
  filter_loop fl result s v = filter_loop fl (List.filter (present fl) result) s v /\
  entry_effect fl key value rest s v.
Proof.
  split; [apply filter_loop_drop_absent|].
  unfold entry_effect, target_column.
  cbn [filter_loop List.find fst snd comparison_kinds].
  destruct (fl !! key) as [prop|]; [|reflexivity].
  destruct prop as [col ft]; cbn [ColumnName FilterType].
  unfold filter_leaf, GormFilterTypeEqual, GormFilterTypeIn, GormFilterTypeNotIn,
    GormFilterTypeLT, GormFilterTypeGT, GormFilterTypeLTE, GormFilterTypeGTE,
    GormFilterTypeRegex.
  rewrite !(String.eqb_sym ft).
  destruct (String.eqb "equal" ft); [exact eq_refl|].
  destruct (String.eqb "in" ft); [exact eq_refl|].
  destruct (String.eqb "not_in" ft); [exact eq_refl|].
  destruct (String.eqb "lt" ft); [exact eq_refl|].
  destruct (String.eqb "gt" ft); [exact eq_refl|].
  destruct (String.eqb "lte" ft); [exact eq_refl|].
  destruct (String.eqb "gte" ft); [exact eq_refl|].
  destruct (String.eqb "regex" ft); [|exact eq_refl].
  destruct value; first [exact I | exact eq_refl].
Qed.

(** C8 counterexample. A key present in [Filterable] whose filter type is
    left unset (the empty [GormFilterType]) yields no leaf at all. *)
Lemma present_key_without_leaf :
  let cfg := {| Filterable := {["status" := {| ColumnName := ""; FilterType := "" |}]};
                Searchable := []; DefaultSort := ""; SelectHandler := None;
                Preloads := []; Joins := ""; UnScoped := false; Group := "";
                ListSelectHandler := None; ListPreloads := None |} in
  fst (QueryBuilder users_repo (request (base_request None None None) [("status", VStr "x")])
         (Some 1%positive) {[1%positive := cfg]}) = Ret (inl ("", [])).
Proof. vm_compute. reflexivity. Qed.

(** C5 (amended). The listing query has the single ORDER BY clause
    [key dir]: the key is the requested sort key when present, else the
    configured default sort when non-empty, else [created_at]; the
    direction is the requested direction lowercased when present (it is
    not checked) and [desc] when absent. With no sort key or direction and
    [DefaultSort = "created_at"] the clause is ["created_at desc"]. *)
Theorem sort_order_fallback (r : GormRepository) (conds : Conditions) (filter : FilterDto)
    (gc : option loc) (lang : string) (st st' : store) (cfg : GormConfig) (q : Query)
    (Hcfg : deref (config_ptr r gc) st = (Ret cfg, st))
    (Hq : BuildBaseQuery r conds filter gc lang st = (Ret q, st')) :
  q_order q = [sort_key (GetBase filter) cfg +s+ " " +s+ sort_dir (GetBase filter)] /\
  option_map q_order
    (match fst (BuildBaseQuery users_repo (CondPtr None)
                  (request (base_request None None None) []) None "en" users_store) with
     | Ret q => Some q | Panic _ => None end) =
    Some ["created_at desc"].
Proof.
  split; [|reflexivity].
  revert Hq. unfold BuildBaseQuery, mbind.
  destruct (BuildQueryConfig r conds gc lang st) as [[q0|e] st0] eqn:HB; [|discriminate].
  assert (st ⊆ st0) as Hsub.
  { pose proof (BuildQueryConfig_pres r conds gc lang st) as Hp. now rewrite HB in Hp. }
  rewrite (deref_weaken _ _ _ _ Hsub Hcfg). intros Hq. injection Hq as <- _.
  simpl. rewrite (BuildQueryConfig_order r conds gc lang st q0) by now rewrite HB.
  unfold sort_key, sort_dir. reflexivity.
Qed.

Lemma sort_order_fallback_witness :
  q_order (OrderQ "created_at desc" NewQuery) = ["created_at desc"] /\
  q_order (OrderQ "created_at desc" NewQuery) =
    [sort_key (base_request None None None) users_config +s+ " " +s+
     sort_dir (base_request None None None)].
Proof.
  split; [reflexivity|].
  apply (proj1 (sort_order_fallback users_repo (CondPtr None)
                  (request (base_request None None None) []) None "en"
                  users_store
                  (snd (BuildBaseQuery users_repo (CondPtr None)
                          (request (base_request None None None) []) None "en" users_store))
                  users_config (OrderQ "created_at desc" NewQuery)
                  eq_refl ltac:(vm_compute; reflexivity))).
Defined.

(** C5 counterexample. With no sort key or direction and
    [DefaultSort = "created_at"] the clause is ["created_at desc"], not
    ["created_at DESC"]; an unrecognized direction ["sideways"] is kept
    instead of falling back to descending. *)
Lemma sort_direction_not_normalized :
  option_map q_order
    (match fst (BuildBaseQuery users_repo (CondPtr None)
                  (request (base_request None None None) []) None "en" users_store) with
     | Ret q => Some q | Panic _ => None end) <> Some ["created_at DESC"] /\
  option_map q_order
    (match fst (BuildBaseQuery users_repo (CondPtr None)
                  (request (base_request None None (Some "sideways")) []) None "en"
                  users_store) with
     | Ret q => Some q | Panic _ => None end) = Some ["created_at sideways"].
Proof. split; [vm_compute; discriminate | reflexivity]. Qed.

(** C6. When the backend reports that no row matched, [FindOne] and
    [FindOneByPK] return the nil entity and no error; any other backend
    error is returned as an error, and a found row is returned with no
    error, so "nothing matched" and "operation failed" are told apart. *)
Theorem find_one_not_found_is_empty {Entity : Type}
    (db_first : Query -> Entity * option DbError) (r : GormRepository)
    (conds : Conditions) (id : val) (gc : option loc) (lang : string)
    (st st1 st2 : store) (q1 q2 : Query)
    (H1 : BuildQueryConfig r conds gc lang st = (Ret q1, st1))
    (H2 : BuildQueryConfig r (CondPtr (Some (Eq "id" id))) gc lang st = (Ret q2, st2)) :
  (snd (db_first q1) = Some ErrRecordNotFound ->
     FindOne db_first r conds gc lang st = (Ret (None, None), st1)) /\
  (forall msg, snd (db_first q1) = Some (ErrBackend msg) ->
     FindOne db_first r conds gc lang st =
       (Ret (Some (fst (db_first q1)), Some (ErrBackend msg)), st1)) /\
  (snd (db_first q1) = None ->
     FindOne db_first r conds gc lang st = (Ret (Some (fst (db_first q1)), None), st1)) /\
  (snd (db_first q2) = Some ErrRecordNotFound ->
     FindOneByPK db_first r id gc lang st = (Ret (None, None), st2)) /\
  (forall msg, snd (db_first q2) = Some (ErrBackend msg) ->
     FindOneByPK db_first r id gc lang st =
       (Ret (Some (fst (db_first q2)), Some (ErrBackend msg)), st2)) /\
  (snd (db_first q2) = None ->
     FindOneByPK db_first r id gc lang st = (Ret (Some (fst (db_first q2)), None), st2)).
Proof.
  unfold FindOne, FindOneByPK, mbind. rewrite H1, H2.
  destruct (db_first q1) as [m1 e1], (db_first q2) as [m2 e2]; simpl.
  repeat split; intros; subst; reflexivity.
Qed.

Lemma find_one_not_found_is_empty_witness :
  FindOne first_none users_repo (CondPtr (Some (Eq "name" (VStr "x")))) None "en" users_store =
    (Ret (None, None),
     snd (BuildQueryConfig users_repo (CondPtr (Some (Eq "name" (VStr "x")))) None "en"
            users_store)).
Proof.
  apply (proj1 (find_one_not_found_is_empty first_none users_repo
    (CondPtr (Some (Eq "name" (VStr "x")))) (VInt 7) None "en" users_store
    (snd (BuildQueryConfig users_repo (CondPtr (Some (Eq "name" (VStr "x")))) None "en"
            users_store))
    (snd (BuildQueryConfig users_repo (CondPtr (Some (Eq "id" (VInt 7)))) None "en"
            users_store))
    (match fst (BuildQueryConfig users_repo (CondPtr (Some (Eq "name" (VStr "x")))) None "en"
                  users_store) with Ret q => q | Panic _ => NewQuery end)
    (match fst (BuildQueryConfig users_repo (CondPtr (Some (Eq "id" (VInt 7)))) None "en"
                  users_store) with Ret q => q | Panic _ => NewQuery end)
    ltac:(vm_compute; reflexivity) ltac:(vm_compute; reflexivity))).
  reflexivity.
Defined.

(** C7. [Paginate] maps a page [<= 0] to 1 and a per-page [<= 0] to 10,
    limits to the per-page count and offsets by [(page - 1) * per-page]
    computed in Go's 64-bit [int] (equal to the exact product whenever
    that fits); [{page: 0, per_page: -5}] gives offset 0 and limit 10,
    that is page 1 of 10 rows. *)
Theorem paginate_normalizes (page size : Z) (q : Query)
    (Hpage : (- 2 ^ 63 <= page < 2 ^ 63)%Z) (Hsize : (- 2 ^ 63 <= size < 2 ^ 63)%Z) :
  let page' := if (page <=? 0)%Z then 1%Z else page in
  let size' := if (size <=? 0)%Z then 10%Z else size in
  q_limit (Paginate page size q) = Some size' /\
  q_offset (Paginate page size q) = Some (wrap64 ((page' - 1) * size')) /\
  ((- 2 ^ 63 <= (page' - 1) * size' < 2 ^ 63)%Z ->
     q_offset (Paginate page size q) = Some ((page' - 1) * size')%Z) /\
  q_offset (Paginate 0 (-5) q) = Some 0%Z /\ q_limit (Paginate 0 (-5) q) = Some 10%Z.
Proof.
  intros page' size'.
  assert (wrap64 (page' - 1) = page' - 1)%Z as Hp.
  { apply wrap64_small. unfold page'. destruct (Z.leb_spec page 0); lia. }
  unfold Paginate. fold page' size'. rewrite Hp. simpl.
  split; [reflexivity|]. split; [reflexivity|].
  split; [intros H; now rewrite wrap64_small|].
  split; reflexivity.
Qed.

Lemma paginate_normalizes_witness :
  q_limit (Paginate 0 (-5) NewQuery) = Some 10%Z /\
  q_offset (Paginate 3 20 NewQuery) = Some 40%Z.
Proof.
  split.
  - apply (proj1 (paginate_normalizes 0 (-5) NewQuery ltac:(lia) ltac:(lia))).
  - apply (proj1 (proj2 (proj2 (paginate_normalizes 3 20 NewQuery ltac:(lia) ltac:(lia))))).
    simpl; lia.
Defined.

(** C10. No sequence of read operations (find one, find by key or ids,
    list, paginated list, count, exists, filter compilation) changes any
    configuration in the store, in particular the repository's own
    configuration; the list-only overrides are written to a fresh copy. *)
Theorem repository_config_never_mutated {Entity : Type}
    (db_first : Query -> Entity * option DbError)
    (db_find : Query -> list Entity * option DbError)
    (db_count : Query -> Z * option DbError)
    (r : GormRepository) (lang : string) (ops : list Op) (st : store)
    (l : loc) (cfg : GormConfig)
    (Hr : Config r = Some l) (Hl : st !! l = Some cfg) :
  run_ops db_first db_find db_count r lang ops st !! l = Some cfg /\
  st ⊆ run_ops db_first db_find db_count r lang ops st /\
  (forall gc, match fst (resolveListConfig r gc st) with
              | Ret l' => st !! l' = None
              | Panic _ => True
              end).
Proof.
  split; [|split].
  - eapply lookup_weaken; [exact Hl | apply run_ops_mono].
  - apply run_ops_mono.
  - intros gc. apply resolveListConfig_fresh.
Qed.

Lemma repository_config_never_mutated_witness :
  run_ops first_none find_none count_zero users_repo "en"
    [OpFindAllWithPaging (CondPtr None) (request (base_request None None None) []) None;
     OpFindOne (CondPtr (Some (Eq "id" (VInt 1)))) None; OpCount (CondPtr None)]
    users_store !! 1%positive = Some users_config.
Proof.
  apply (proj1 (repository_config_never_mutated first_none find_none count_zero
    users_repo "en"
    [OpFindAllWithPaging (CondPtr None) (request (base_request None None None) []) None;
     OpFindOne (CondPtr (Some (Eq "id" (VInt 1)))) None; OpCount (CondPtr None)]
    users_store 1%positive users_config eq_refl ltac:(vm_compute; reflexivity))).
Defined.




End Claims.

(** * Further properties of the code *)

Module ExtraFacts.
Import ConditionBuilder ConditionBuilderFacts Configs Dto Gorm Store Repository
  RepositoryFacts Operations Specs.

Lemma count_q_app (a b : string) : count_q (a +s+ b) = (count_q a + count_q b)%nat.
Proof. induction a as [|c a IH]; simpl; [reflexivity|]. rewrite IH. lia. Qed.

Lemma count_q_concat (sep : string) (l : list string) :
  count_q sep = 0%nat ->
  count_q (String.concat sep l) = list_sum (map count_q l).
Proof.
  intros Hsep. induction l as [|x [|y l] IH]; simpl.
  - reflexivity.
  - lia.
  - rewrite !count_q_app, Hsep. simpl in IH. rewrite IH. lia.
Qed.

Lemma cond_ok_cons conn frag args grp ps :
  cond_ok (Cond (Part conn frag args grp :: ps)) =
  Nat.eqb (count_q conn) 0 &&
  match grp with Some g => cond_ok g | None => Nat.eqb (count_q frag) (length args) end &&
  cond_ok (Cond ps).
Proof. reflexivity. Qed.

Lemma cond_ok_app ps qs :
  cond_ok (Cond (app ps qs)) = cond_ok (Cond ps) && cond_ok (Cond qs).
Proof.
  induction ps as [|[conn frag args grp] ps IH]; [reflexivity|].
  simpl app. rewrite !cond_ok_cons, IH. now rewrite !andb_assoc.
Qed.

Lemma compile_loop_count ps i s a :
  Forall group_hyp ps -> cond_ok (Cond ps) = true ->
  (list_sum (map count_q (fst (compile_loop compile i ps s a))) + length a =
   length (snd (compile_loop compile i ps s a)) + list_sum (map count_q s))%nat.
Proof.
  revert i s a. induction ps as [|[conn frag pargs grp] ps IH]; intros i s a HF Hok.
  - simpl. lia.
  - inversion HF as [|? ? Hg HF']; subst.
    rewrite cond_ok_cons in Hok. apply andb_prop in Hok as [Hok Hrest].
    apply andb_prop in Hok as [Hconn Hpart]. apply Nat.eqb_eq in Hconn.
    simpl. destruct grp as [g|].
    + simpl in Hg. specialize (Hg Hpart).
      destruct (compile g) as [f ga] eqn:Hc; simpl in Hg.
      destruct (String.eqb f ""); [apply IH; auto|].
      match goal with |- context [compile_loop compile (S i) ps ?s' ?a'] =>
        pose proof (IH (S i) s' a' HF' Hrest) as HI end.
      destruct (_ && _); rewrite !map_app, !list_sum_app, !length_app in HI; simpl in HI;
        destruct (1 <? length (parts g))%nat; rewrite ?count_q_app in HI; simpl in HI; lia.
    + apply Nat.eqb_eq in Hpart.
      match goal with |- context [compile_loop compile (S i) ps ?s' ?a'] =>
        pose proof (IH (S i) s' a' HF' Hrest) as HI end.
      destruct (_ && _); rewrite !map_app, !list_sum_app, !length_app in HI; simpl in HI; lia.
Qed.

Lemma compile_count (c : Condition) :
  cond_ok c = true -> count_q (fst (compile c)) = length (snd (compile c)).
Proof.
  revert c. fix IHc 1. intros [ps] Hok.
  assert (HF : Forall group_hyp ps).
  { clear Hok. induction ps as [|[conn frag pargs [g|]] ps IHps]; constructor; simpl; auto. }
  rewrite compile_segments. simpl fst; simpl snd. unfold segments, cargs. simpl parts.
  rewrite count_q_concat by reflexivity.
  pose proof (compile_loop_count ps 0 [] [] HF Hok) as H. simpl in H. lia.
Qed.

Lemma built_cond_ok (c : Condition) : built c -> cond_ok c = true.
Proof.
  induction 1; try (simpl; rewrite ?count_q_app; simpl;
                    match goal with H : count_q _ = 0%nat |- _ => rewrite H end; reflexivity).
  - simpl. rewrite H, Nat.eqb_refl. reflexivity.
  - destruct o as [g|]; [|exact IHbuilt].
    unfold And, Or. rewrite cond_ok_app. destruct c as [ps]. simpl parts.
    rewrite IHbuilt, cond_ok_cons, (H1 g eq_refl). reflexivity.
  - destruct o as [g|]; [|exact IHbuilt].
    unfold And, Or. rewrite cond_ok_app. destruct c as [ps]. simpl parts.
    rewrite IHbuilt, cond_ok_cons, (H1 g eq_refl). reflexivity.
Qed.

Lemma built_some (g : Condition) : built g -> forall g', Some g = Some g' -> built g'.
Proof. intros Hg g' H. injection H as <-. exact Hg. Qed.

End ExtraFacts.

Module ExtraFacts2.
Import ConditionBuilder ConditionBuilderFacts Configs Dto Gorm Store Repository
  RepositoryFacts Operations Writes Specs.

Lemma gcb_fold (fs : list QueryField.GormQueryField) qs vs :
  fold_left
      (fun '(queryStrings, queryValues) condition =>
         let operation := if String.eqb (QueryField.Operation condition) ""
                          then "=" else QueryField.Operation condition in
         (app queryStrings [QueryField.Column condition +s+ " " +s+ operation +s+ " ?"],
          app queryValues [QueryField.Value condition]))
      fs (qs, vs) =
  (app qs (map (fun f => fst (compile (field_leaf f))) fs),
   app vs (map QueryField.Value fs)).
Proof.
  revert qs vs. induction fs as [|f fs IH]; intros qs vs; simpl.
  - now rewrite !app_nil_r.
  - rewrite IH. now rewrite <- !app_assoc.
Qed.

Lemma field_leaf_compile f :
  compile (field_leaf f) =
  (QueryField.Column f +s+ " " +s+
   (if String.eqb (QueryField.Operation f) "" then "=" else QueryField.Operation f) +s+ " ?",
   [QueryField.Value f]).
Proof. reflexivity. Qed.

Lemma append_ne a b : b <> "" -> a +s+ b <> "".
Proof. destruct a; simpl; [auto|discriminate]. Qed.

Lemma field_leaf_nonempty f : String.eqb (fst (compile (field_leaf f))) "" = false.
Proof.
  apply String.eqb_neq. rewrite field_leaf_compile. simpl fst.
  apply append_ne, append_ne, append_ne. discriminate.
Qed.

Lemma concat_and_interleave {A} (h : A -> string) (x : string) (l : list A) :
  String.concat " " (x :: flat_map (fun y => ["AND"; h y]) l) =
  String.concat " AND " (x :: map h l).
Proof.
  revert x. induction l as [|y l IH]; intros x; [reflexivity|].
  cbn [flat_map map app].
  change (String.concat " " (x :: "AND" :: h y :: flat_map (fun y => ["AND"; h y]) l))
    with (x +s+ " " +s+ ("AND" +s+ " " +s+
          String.concat " " (h y :: flat_map (fun y => ["AND"; h y]) l))).
  rewrite IH. reflexivity.
Qed.

Lemma and_step (c : Condition) (f : QueryField.GormQueryField) :
  parts c <> [] ->
  segments (And c (Some (field_leaf f))) =
    app (segments c) ["AND"; fst (compile (field_leaf f))] /\
  cargs (And c (Some (field_leaf f))) = app (cargs c) [QueryField.Value f].
Proof.
  intros Hc. unfold segments at 1, cargs at 1, And. cbn [parts].
  rewrite compose_loop. unfold emitted_args, wrap_group. rewrite field_leaf_nonempty.
  destruct c as [[|p ps]]; [simpl in Hc; congruence|]. split; reflexivity.
Qed.

Lemma and_chain_loop (fs : list QueryField.GormQueryField) (c : Condition) :
  parts c <> [] ->
  segments (fold_left (fun c g => And c (Some (field_leaf g))) fs c) =
    app (segments c) (flat_map (fun g => ["AND"; fst (compile (field_leaf g))]) fs) /\
  cargs (fold_left (fun c g => And c (Some (field_leaf g))) fs c) =
    app (cargs c) (map QueryField.Value fs) /\
  parts (fold_left (fun c g => And c (Some (field_leaf g))) fs c) <> [].
Proof.
  revert c. induction fs as [|g fs IH]; intros c Hc.
  - simpl. now rewrite !app_nil_r.
  - cbn [fold_left flat_map map]. destruct (IH (And c (Some (field_leaf g)))) as (H1 & H2 & H3).
    { simpl. destruct (parts c); discriminate. }
    destruct (and_step c g Hc) as [Hs Ha].
    rewrite H1, H2, Hs, Ha, <- !app_assoc. split; [reflexivity|split; [reflexivity|exact H3]].
Qed.

End ExtraFacts2.

Module ExtraFacts3.
Import ConditionBuilder Configs Dto Gorm Store Repository RepositoryFacts Operations Writes
  Specs OrderFacts.

Lemma BQC_eval r c gc st cfg :
  deref (config_ptr r gc) st = (Ret cfg, st) ->
  BuildQueryConditions r c gc st =
  (if bad_args c then Panic "interface conversion: interface {} is not []interface {}"
   else Ret (cond_query cfg c), st).
Proof.
  intros Hd. unfold BuildQueryConditions, mbind. rewrite Hd.
  unfold cond_query, conditions_where, bad_args.
  destruct c as [co|[qv|] [av|]|]; repeat case_match; simplify_eq/=; try reflexivity; congruence.
Qed.

Lemma fresh_subseteq (st : store) (x : GormConfig) : st ⊆ <[fresh (dom st) := x]> st.
Proof. apply insert_subseteq, not_elem_of_dom, is_fresh. Qed.

Lemma deref_fresh p st cfg x :
  deref p st = (Ret cfg, st) ->
  deref p (<[fresh (dom st) := x]> st) = (Ret cfg, <[fresh (dom st) := x]> st).
Proof. apply deref_weaken, fresh_subseteq. Qed.

Lemma deref_inserted (l : loc) (x : GormConfig) (st : store) :
  deref (Some l) (<[l := x]> st) = (Ret x, <[l := x]> st).
Proof. unfold deref. simplify_map_eq. reflexivity. Qed.

Lemma BQConfig_eval r c gc lang st cfg :
  deref (config_ptr r gc) st = (Ret cfg, st) ->
  BuildQueryConfig r c gc lang st =
  (if bad_args c then Panic "interface conversion: interface {} is not []interface {}"
   else Ret (config_query cfg lang c), <[fresh (dom st) := cfg]> st).
Proof.
  intros Hd. unfold BuildQueryConfig, mbind. rewrite Hd. cbn [alloc].
  rewrite (BQC_eval r c (Some (fresh (dom st))) _ cfg) by apply deref_inserted.
  unfold config_query. destruct (bad_args c); reflexivity.
Qed.

Lemma BBQ_eval r c f gc lang st cfg :
  deref (config_ptr r gc) st = (Ret cfg, st) ->
  BuildBaseQuery r c f gc lang st =
  (if bad_args c then Panic "interface conversion: interface {} is not []interface {}"
   else Ret (OrderQ (sort_key (GetBase f) cfg +s+ " " +s+ sort_dir (GetBase f))
                    (config_query cfg lang c)),
   <[fresh (dom st) := cfg]> st).
Proof.
  intros Hd. unfold BuildBaseQuery, mbind. rewrite (BQConfig_eval r c gc lang st cfg Hd).
  destruct (bad_args c); [reflexivity|].
  rewrite (deref_fresh _ _ _ cfg Hd). reflexivity.
Qed.

Lemma resolve_eval r gc st cfg :
  deref (config_ptr r gc) st = (Ret cfg, st) ->
  exists cfg',
    resolveListConfig r gc st = (Ret (fresh (dom st)), <[fresh (dom st) := cfg']> st) /\
    Filterable cfg' = Filterable cfg /\ Searchable cfg' = Searchable cfg /\
    DefaultSort cfg' = DefaultSort cfg /\ Joins cfg' = Joins cfg /\
    UnScoped cfg' = UnScoped cfg /\ Group cfg' = Group cfg /\
    SelectHandler cfg' = match ListSelectHandler cfg with
                         | Some h => Some h | None => SelectHandler cfg end /\
    Preloads cfg' = match ListPreloads cfg with
                    | Some ps => ps | None => Preloads cfg end.
Proof.
  intros Hd. unfold resolveListConfig, mbind. rewrite Hd.
  eexists. split; [reflexivity|].
  destruct (ListSelectHandler cfg), (ListPreloads cfg); simpl; repeat split.
Qed.

Lemma apply_preloads_fields lang ps q :
  q_joins (apply_preloads lang ps q) = q_joins q /\
  q_where (apply_preloads lang ps q) = q_where q /\
  q_select (apply_preloads lang ps q) = q_select q /\
  q_unscoped (apply_preloads lang ps q) = q_unscoped q /\
  q_order (apply_preloads lang ps q) = q_order q /\
  q_group (apply_preloads lang ps q) = q_group q /\
  q_offset (apply_preloads lang ps q) = q_offset q /\
  q_limit (apply_preloads lang ps q) = q_limit q /\
  q_preloads (apply_preloads lang ps q) =
    app (q_preloads q) (q_preloads (apply_preloads lang ps NewQuery)).
Proof.
  unfold apply_preloads. revert q. induction ps as [|p ps IH]; intros q; simpl.
  - rewrite app_nil_r. repeat split.
  - destruct (Preload.SelectHandler p) as [h|];
      match goal with |- context [fold_left ?F ps (PreloadQ ?a ?b ?u q)] =>
        destruct (IH (PreloadQ a b u q)) as (H1 & H2 & H3 & H4 & H5 & H6 & H7 & H8 & H9);
        destruct (IH (PreloadQ a b u NewQuery)) as (_ & _ & _ & _ & _ & _ & _ & _ & H9')
      end;
      rewrite H1, H2, H3, H4, H5, H6, H7, H8, H9, H9'; simpl;
      rewrite <- app_assoc; repeat split.
Qed.

Lemma config_query_fields cfg lang c :
  q_joins (config_query cfg lang c) = q_joins (cond_query cfg c) /\
  q_where (config_query cfg lang c) = conditions_where c /\
  q_group (config_query cfg lang c) = [] /\
  q_order (config_query cfg lang c) = [] /\
  q_offset (config_query cfg lang c) = None /\
  q_limit (config_query cfg lang c) = None /\
  q_unscoped (config_query cfg lang c) = UnScoped cfg /\
  q_select (config_query cfg lang c) = handler_select (SelectHandler cfg) lang /\
  q_preloads (config_query cfg lang c) = q_preloads (apply_preloads lang (Preloads cfg) NewQuery).
Proof.
  unfold config_query.
  destruct (SelectHandler cfg) as [h|];
    match goal with |- context [apply_preloads lang (Preloads cfg) ?q] =>
      destruct (apply_preloads_fields lang (Preloads cfg) q)
        as (H1 & H2 & H3 & H4 & H5 & H6 & H7 & H8 & H9)
    end;
    destruct (UnScoped cfg); simpl; rewrite ?H1, ?H2, ?H3, ?H4, ?H5, ?H6, ?H7, ?H8, ?H9;
    repeat split.
Qed.

End ExtraFacts3.

Module ExtraFacts4.
Import ConditionBuilder Configs Dto Gorm Store Repository RepositoryFacts Operations Writes
  Specs ExtraFacts3.

Section Backend.
Context {Entity : Type}.
Variable db_first : Query -> Entity * option DbError.
Variable db_find : Query -> list Entity * option DbError.
Variable db_count : Query -> Z * option DbError.

Lemma FAWP_eval r c f gc lang st cfg :
  deref (config_ptr r gc) st = (Ret cfg, st) -> bad_args c = false ->
  exists cfg',
    Joins cfg' = Joins cfg /\ UnScoped cfg' = UnScoped cfg /\ Group cfg' = Group cfg /\
    fst (FindAllWithPaging db_find db_count r c f gc lang st) =
    paging_result
      (db_count (if String.eqb (Group cfg') "" then cond_query cfg' c
                 else GroupQ (Group cfg') (cond_query cfg' c)))
      (db_find
         (let q := OrderQ (sort_key (GetBase f) cfg' +s+ " " +s+ sort_dir (GetBase f))
                          (config_query cfg' lang c) in
          let q := if String.eqb (Group cfg') "" then q else GroupQ (Group cfg') q in
          match Pagination (GetBase f) with
          | Some false => q
          | _ => Paginate (Page (GetBase f)) (PerPage (GetBase f)) q
          end)).
Proof.
  intros Hd Hc.
  destruct (resolve_eval r gc st cfg Hd) as (cfg' & Hr & _ & _ & _ & HJ & HU & HG & _ & _).
  exists cfg'. split; [exact HJ|]. split; [exact HU|]. split; [exact HG|].
  unfold FindAllWithPaging, mbind. rewrite Hr.
  set (l := fresh (dom st)). set (st1 := <[l := cfg']> st).
  rewrite (BBQ_eval r c f (Some l) lang st1 cfg') by apply deref_inserted. rewrite Hc.
  assert (Hl : deref (Some l) (<[fresh (dom st1) := cfg']> st1) =
               (Ret cfg', <[fresh (dom st1) := cfg']> st1)).
  { apply deref_fresh, deref_inserted. }
  rewrite (BQC_eval r c (Some l) _ cfg') by exact Hl. rewrite Hc, Hl.
  unfold paging_result.
  destruct (String.eqb (Group cfg') ""); simpl;
    destruct (db_count _) as [total [e|]]; simpl; try reflexivity;
    destruct (Pagination (GetBase f)) as [[|]|];
    destruct (db_find _) as [ents [e'|]]; reflexivity.
Qed.

Lemma FindAll_eval r c f gc lang st cfg :
  deref (config_ptr r gc) st = (Ret cfg, st) -> bad_args c = false ->
  exists cfg',
    Joins cfg' = Joins cfg /\ UnScoped cfg' = UnScoped cfg /\ DefaultSort cfg' = DefaultSort cfg /\
    SelectHandler cfg' = match ListSelectHandler cfg with
                         | Some h => Some h | None => SelectHandler cfg end /\
    Preloads cfg' = match ListPreloads cfg with
                    | Some ps => ps | None => Preloads cfg end /\
    fst (FindAll db_find r c f gc lang st) =
    Ret (db_find (OrderQ (sort_key (GetBase f) cfg' +s+ " " +s+ sort_dir (GetBase f))
                         (config_query cfg' lang c))).
Proof.
  intros Hd Hc.
  destruct (resolve_eval r gc st cfg Hd) as (cfg' & Hr & _ & _ & HD & HJ & HU & _ & HS & HP).
  exists cfg'. repeat (split; [assumption|]).
  unfold FindAll, mbind. rewrite Hr.
  rewrite (BBQ_eval r c f (Some (fresh (dom st))) lang _ cfg') by apply deref_inserted.
  rewrite Hc. reflexivity.
Qed.

Lemma FindOne_eval r c gc lang st cfg :
  deref (config_ptr r gc) st = (Ret cfg, st) -> bad_args c = false ->
  fst (FindOne db_first r c gc lang st) = first_result (db_first (config_query cfg lang c)).
Proof.
  intros Hd Hc. unfold FindOne, mbind. rewrite (BQConfig_eval r c gc lang st cfg Hd), Hc.
  unfold first_result. destruct (db_first _) as [m [[|msg]|]]; reflexivity.
Qed.

End Backend.

End ExtraFacts4.

Module ExtraFacts5.
Import ConditionBuilder Configs Dto Gorm Store Repository RepositoryFacts Operations Writes
  Specs ExtraFacts.

Lemma filter_leaf_count column ft value frag v :
  filter_leaf column ft value = Ret (Some (frag, v)) -> count_q frag = S (count_q column).
Proof.
  unfold filter_leaf.
  repeat match goal with |- context [if ?b then _ else _] => destruct b end;
    try destruct value; intros H; try discriminate; injection H as <- <-;
    rewrite ?count_q_app; simpl; lia.
Qed.

Lemma filter_loop_count fl result qs vs qs' vs' :
  (forall k p, fl !! k = Some p -> count_q (target_column k p) = 0%nat) ->
  filter_loop fl result qs vs = Ret (qs', vs') ->
  (list_sum (map count_q qs') + length vs = length vs' + list_sum (map count_q qs))%nat.
Proof.
  intros Hfl. revert qs vs. induction result as [|[key value] rest IH]; intros qs vs H.
  - simpl in H. injection H as <- <-. lia.
  - simpl in H. destruct (fl !! key) as [prop|] eqn:Hk; [|exact (IH _ _ H)].
    destruct (filter_leaf _ _ value) as [[[frag v]|]|e] eqn:Hl; [|exact (IH _ _ H)|discriminate].
    apply filter_leaf_count in Hl. specialize (Hfl key prop Hk). unfold target_column in Hfl.
    specialize (IH _ _ H). rewrite map_app, list_sum_app, length_app in IH. simpl in IH. lia.
Qed.

Lemma search_group_count search cols :
  Forall (fun s => count_q s = 0%nat) cols ->
  list_sum (map count_q (fst (search_group search cols))) = length (snd (search_group search cols)).
Proof.
  intros Hc. destruct search as [s|]; [|reflexivity]. destruct cols as [|c0 cs]; [reflexivity|].
  change (fst (search_group (Some s) (c0 :: cs))) with
    ["(" +s+ String.concat " OR " (map (fun field => "lower(" +s+ field +s+ ") LIKE ?") (c0 :: cs))
     +s+ ")"].
  change (snd (search_group (Some s) (c0 :: cs))) with
    (map (fun _ : string => VStr ("%" +s+ ToLower s +s+ "%")) (c0 :: cs)).
  revert Hc. generalize (c0 :: cs) as l. intros l Hc.
  simpl map. simpl list_sum. rewrite Nat.add_0_r, !count_q_app.
  rewrite count_q_concat by reflexivity. rewrite length_map, map_map. simpl.
  induction Hc as [|c cs' Hc0 Hcs IH]; [reflexivity|].
  simpl. rewrite !count_q_app, Hc0. simpl in *. lia.
Qed.

End ExtraFacts5.

Module ExtraFacts6.
Import Dto Binding Specs.

Lemma digit_of_decimal c :
  (48 <=? nat_of_ascii c)%nat && (nat_of_ascii c <=? 57)%nat = true ->
  digit c = Some (Z.of_nat (nat_of_ascii c - 48)).
Proof. unfold digit. intros ->. reflexivity. Qed.

Lemma decimal_value_cons c rest :
  decimal_value (String c rest) =
  if (48 <=? nat_of_ascii c)%nat && (nat_of_ascii c <=? 57)%nat then
    match decimal_value rest with
    | Some v => Some (Z.of_nat (nat_of_ascii c - 48) * 10 ^ Z.of_nat (String.length rest) + v)%Z
    | None => None
    end
  else None.
Proof. reflexivity. Qed.

Lemma decimal_value_bounds s v :
  decimal_value s = Some v -> (0 <= v < 10 ^ Z.of_nat (String.length s))%Z.
Proof.
  revert v. induction s as [|c rest IH]; intros v H; rewrite ?decimal_value_cons in H.
  - injection H as <-. simpl. lia.
  - destruct ((48 <=? nat_of_ascii c)%nat && (nat_of_ascii c <=? 57)%nat) eqn:Hc; [|discriminate].
    destruct (decimal_value rest) as [v'|]; [|discriminate]. injection H as <-.
    specialize (IH v' eq_refl).
    apply andb_prop in Hc as [H1 H2]. apply Nat.leb_le in H1, H2.
    cbn [String.length]. rewrite Nat2Z.inj_succ, Z.pow_succ_r by lia.
    assert (0 <= Z.of_nat (nat_of_ascii c - 48) <= 9)%Z by lia.
    nia.
Qed.

Lemma atoi_fast_loop_value s n v :
  decimal_value s = Some v ->
  atoi_fast_loop s n = Some (n * 10 ^ Z.of_nat (String.length s) + v)%Z.
Proof.
  revert n v. induction s as [|c rest IH]; intros n v H; rewrite ?decimal_value_cons in H.
  - injection H as <-. simpl. f_equal. lia.
  - destruct ((48 <=? nat_of_ascii c)%nat && (nat_of_ascii c <=? 57)%nat) eqn:Hc; [|discriminate].
    destruct (decimal_value rest) as [v'|] eqn:Hr; [|discriminate]. injection H as <-.
    simpl. rewrite (digit_of_decimal c Hc), (IH _ v' eq_refl). f_equal.
    rewrite Nat2Z.inj_succ, Z.pow_succ_r by lia. ring.
Qed.

Lemma parse_uint_loop_value s n v :
  decimal_value s = Some v -> (0 <= n <= maxUint64)%Z ->
  parse_uint_loop s n =
  if (n * 10 ^ Z.of_nat (String.length s) + v <=? maxUint64)%Z
  then ((n * 10 ^ Z.of_nat (String.length s) + v)%Z, None)
  else (maxUint64, Some ErrRange).
Proof.
  revert n v. induction s as [|c rest IH]; intros n v H Hn; rewrite ?decimal_value_cons in H.
  - injection H as <-. simpl. rewrite Z.mul_1_r, Z.add_0_r.
    destruct (Z.leb_spec n maxUint64); [reflexivity|lia].
  - destruct ((48 <=? nat_of_ascii c)%nat && (nat_of_ascii c <=? 57)%nat) eqn:Hc; [|discriminate].
    destruct (decimal_value rest) as [v'|] eqn:Hr; [|discriminate]. injection H as <-.
    pose proof (decimal_value_bounds rest v' Hr) as Hb.
    assert (Hd : (0 <= Z.of_nat (nat_of_ascii c - 48) <= 9)%Z).
    { apply andb_prop in Hc as [H1 H2]. apply Nat.leb_le in H1, H2. lia. }
    set (d := Z.of_nat (nat_of_ascii c - 48)) in *.
    set (p := (10 ^ Z.of_nat (String.length rest))%Z) in *.
    cbn [parse_uint_loop String.length]. rewrite (digit_of_decimal c Hc). fold d.
    rewrite Nat2Z.inj_succ, Z.pow_succ_r by lia. fold p.
    assert (Hp : (1 <= p)%Z) by (subst p; lia).
    unfold maxUint64 in *.
    destruct (Z.leb_spec ((2 ^ 64 - 1) / 10 + 1) n) as [Hcut|Hcut].
    + destruct (Z.leb_spec (n * (10 * p) + (d * p + v')) (2 ^ 64 - 1)); [|reflexivity].
      exfalso. assert (Hq : ((2 ^ 64 - 1) / 10 = 1844674407370955161)%Z) by reflexivity.
      rewrite Hq in Hcut. nia.
    + destruct (Z.ltb_spec (2 ^ 64 - 1) (n * 10 + d)) as [Hov|Hov].
      * destruct (Z.leb_spec (n * (10 * p) + (d * p + v')) (2 ^ 64 - 1)); [|reflexivity].
        exfalso. nia.
      * rewrite (IH (n * 10 + d)%Z v' eq_refl) by lia.
        replace ((n * 10 + d) * p + v')%Z with (n * (10 * p) + (d * p + v'))%Z by ring.
        reflexivity.
Qed.

Lemma digit_not_sign c :
  (48 <=? nat_of_ascii c)%nat && (nat_of_ascii c <=? 57)%nat = true ->
  Ascii.eqb c "-" = false /\ Ascii.eqb c "+" = false.
Proof.
  intros Hc. apply andb_prop in Hc as [H1 _]. apply Nat.leb_le in H1.
  split; apply Ascii.eqb_neq; intros ->; vm_compute in H1; lia.
Qed.

Lemma atoi_decimal (s : string) (v : Z) :
  s <> "" -> decimal_value s = Some v ->
  Atoi s = if (v <? 2 ^ 63)%Z then (v, None) else ((2 ^ 63 - 1)%Z, Some ErrRange).
Proof.
  intros Hne Hv. pose proof (decimal_value_bounds s v Hv) as Hb.
  destruct s as [|c rest]; [congruence|].
  pose proof Hv as Hv'. rewrite decimal_value_cons in Hv'.
  destruct ((48 <=? nat_of_ascii c)%nat && (nat_of_ascii c <=? 57)%nat) eqn:Hc;
    [|discriminate].
  destruct (digit_not_sign c Hc) as [Hm Hp].
  unfold Atoi. cbn [String.length] in *.
  destruct ((0 <? S (String.length rest))%nat && (S (String.length rest) <? 19)%nat) eqn:Hf.
  - rewrite Hm, Hp. cbn [String.length].
    destruct (S (String.length rest) <? 1)%nat eqn:H1; [apply Nat.ltb_lt in H1; lia|].
    rewrite (atoi_fast_loop_value _ 0 v Hv).
    apply andb_prop in Hf as [_ Hf]. apply Nat.ltb_lt in Hf.
    assert (Hlt : (v < 2 ^ 63)%Z).
    { assert (10 ^ Z.of_nat (S (String.length rest)) <= 10 ^ 18)%Z
        by (apply Z.pow_le_mono_r; lia).
      assert ((10 ^ 18 < 2 ^ 63)%Z) by reflexivity. lia. }
    destruct (Z.ltb_spec v (2 ^ 63)); [f_equal; lia|lia].
  - unfold ParseInt. rewrite Hp, Hm. unfold ParseUint.
    rewrite (parse_uint_loop_value _ 0 v Hv) by (unfold maxUint64; lia).
    cbn [String.length]. rewrite Z.mul_0_l, Z.add_0_l.
    destruct (Z.leb_spec v maxUint64) as [Hle|Hgt]; simpl.
    + destruct (Z.leb_spec (2 ^ 63) v); destruct (Z.ltb_spec v (2 ^ 63)); simpl;
        try reflexivity; lia.
    + unfold maxUint64 in *. destruct (Z.ltb_spec v (2 ^ 63)); [lia|reflexivity].
Qed.

Lemma QueryParam_nonempty params key d : d <> "" -> QueryParam params key d <> "".
Proof.
  intros Hd. unfold QueryParam.
  destruct (List.find _ params) as [[k v]|]; [|exact Hd].
  destruct (String.eqb_spec v ""); [exact Hd|assumption].
Qed.

End ExtraFacts6.


Module Extras.
Import ConditionBuilder ConditionBuilderFacts Configs Dto Gorm Store Repository
  RepositoryFacts Operations Writes Binding Services Fixtures Specs
  ExtraFacts ExtraFacts2 ExtraFacts3 ExtraFacts4 ExtraFacts5 ExtraFacts6.

(** Placeholder invariant of the condition builder: for a condition built
    with the constructors ([Eq] to [EndsWith], [IsNull], [IsNotNull],
    [Between], [NotBetween]) on columns without [?], [Raw] fragments with
    one [?] per argument, and [And]/[Or], the query [Build] returns has
    exactly as many [?] placeholders as it returns arguments. *)
Theorem build_placeholders_match_args (c : Condition) :
  built c -> count_q (fst (Build (Some c))) = length (snd (Build (Some c))).
Proof.
  intros Hb. unfold Build. destruct (parts c); [reflexivity|].
  apply compile_count, built_cond_ok, Hb.
Qed.

Lemma build_placeholders_match_args_witness :
  built (And (Eq "a" (VInt 1)) (Some (Or (Raw "b > ? AND b < ?" [VInt 2; VInt 9])
                                          (Some (IsNull "c"))))) /\
  count_q (fst (Build (Some (And (Eq "a" (VInt 1))
             (Some (Or (Raw "b > ? AND b < ?" [VInt 2; VInt 9]) (Some (IsNull "c")))))))) =
  length (snd (Build (Some (And (Eq "a" (VInt 1))
             (Some (Or (Raw "b > ? AND b < ?" [VInt 2; VInt 9]) (Some (IsNull "c")))))))).
Proof.
  assert (Hb : built (And (Eq "a" (VInt 1)) (Some (Or (Raw "b > ? AND b < ?" [VInt 2; VInt 9])
                                          (Some (IsNull "c")))))).
  { apply built_And; [apply built_Eq; reflexivity|]. apply built_some.
    apply built_Or; [apply built_Raw; reflexivity|]. apply built_some.
    apply built_IsNull; reflexivity. }
  split; [exact Hb|]. apply build_placeholders_match_args. exact Hb.
Defined.

(** [GormConditionBuilder] on a non-empty field list gives the same query
    and arguments as [Build] on the [And]-chain of the fields' leaves
    [column op ?] (op defaulting to [=]), combined left to right. *)
Theorem gorm_condition_builder_and_chain (f : QueryField.GormQueryField)
    (fs : list QueryField.GormQueryField) :
  GormConditionBuilder (f :: fs) =
  Build (Some (fold_left (fun c g => And c (Some (field_leaf g))) fs (field_leaf f))).
Proof.
  unfold GormConditionBuilder. rewrite gcb_fold. simpl app.
  destruct (and_chain_loop fs (field_leaf f)) as (H1 & H2 & H3); [discriminate|].
  unfold Build. destruct (parts _) as [|p ps] eqn:Hp; [congruence|].
  clear Hp. rewrite compile_segments, H1, H2.
  assert (segments (field_leaf f) = [fst (compile (field_leaf f))]) as -> by reflexivity.
  assert (cargs (field_leaf f) = [QueryField.Value f]) as -> by reflexivity.
  simpl app. rewrite concat_and_interleave. reflexivity.
Qed.

(** With a valid configuration, [BuildQueryConditions] panics exactly when
    the conditions are a map whose ["query"] is a non-empty string and whose
    ["args"] is missing or not a [[]any]; a [*Condition], an empty query and
    any other value never panic. *)
Theorem build_query_conditions_panics_iff r c gc st cfg :
  deref (config_ptr r gc) st = (Ret cfg, st) ->
  ((exists msg, fst (BuildQueryConditions r c gc st) = Panic msg) <-> bad_args c = true).
Proof.
  intros Hd. rewrite (BQC_eval r c gc st cfg Hd).
  destruct (bad_args c); simpl; split.
  - reflexivity.
  - intros _. eexists. reflexivity.
  - intros [msg H]. discriminate.
  - discriminate.
Qed.

Lemma build_query_conditions_panics_iff_witness :
  deref (config_ptr users_repo None) users_store = (Ret users_config, users_store) /\
  ((exists msg, fst (BuildQueryConditions users_repo
                       (CondMap (Some (VStr "age > ?")) None) None users_store) = Panic msg) <->
   bad_args (CondMap (Some (VStr "age > ?")) None) = true).
Proof.
  split; [reflexivity|].
  apply (build_query_conditions_panics_iff users_repo _ None users_store users_config).
  reflexivity.
Defined.

(** A repository whose [Config] is nil panics on every read when no
    configuration is passed: [FindOne], [FindOneByPK], [FindByIDs],
    [FindAll], [FindAllWithPaging], [Count], [Exists], [ExistsByPK],
    [QueryBuilder], [Pluck], and also on [Update]. *)
Theorem nil_config_reads_panic {E : Type} (db_first : Query -> E * option DbError)
    (db_find : Query -> list E * option DbError) (db_count : Query -> Z * option DbError)
    (db_pluck : Query -> string -> list val * option DbError)
    (db_write : Stmt -> option DbError)
    (r : GormRepository) (c : Conditions) (f : FilterDto) (ids : list val) (id dto : val)
    (column lang : string) (st : store) :
  Config r = None ->
  (exists m, fst (FindOne db_first r c None lang st) = Panic m) /\
  (exists m, fst (FindOneByPK db_first r id None lang st) = Panic m) /\
  (exists m, fst (FindByIDs db_find r ids None lang st) = Panic m) /\
  (exists m, fst (FindAll db_find r c f None lang st) = Panic m) /\
  (exists m, fst (FindAllWithPaging db_find db_count r c f None lang st) = Panic m) /\
  (exists m, fst (Count db_count r c st) = Panic m) /\
  (exists m, fst (Exists db_count r c st) = Panic m) /\
  (exists m, fst (ExistsByPK db_count r id st) = Panic m) /\
  (exists m, fst (QueryBuilder r f None st) = Panic m) /\
  (exists m, fst (Pluck db_pluck r column c st) = Panic m) /\
  (exists m, fst (Update db_write r c dto lang st) = Panic m).
Proof.
  intros Hn.
  assert (H1 : deref (config_ptr r None) st = (Panic "nil pointer dereference", st))
    by (simpl; rewrite Hn; reflexivity).
  assert (H2 : deref (Config r) st = (Panic "nil pointer dereference", st))
    by (rewrite Hn; reflexivity).
  unfold ExistsByPK, Exists, FindOne, FindOneByPK, FindByIDs, FindAll, FindAllWithPaging,
    Count, QueryBuilder, Pluck, Update, BuildQueryConfig, BuildBaseQuery,
    BuildQueryConditions, resolveListConfig, mbind;
    rewrite ?Hn, ?H1; repeat split; eexists; reflexivity.
Qed.

Lemma nil_config_reads_panic_witness :
  Config {| Config := None; TableName := "users" |} = None /\
  (exists m, fst (FindOne first_none {| Config := None; TableName := "users" |}
                     (CondPtr None) None "en" users_store) = Panic m).
Proof.
  split; [reflexivity|].
  apply (nil_config_reads_panic first_none find_none count_zero
           (fun _ _ => ([], None)) (fun _ => None)
           {| Config := None; TableName := "users" |} (CondPtr None)
           (request (base_request None None None) []) [] VNil VNil "id" "en" users_store).
  reflexivity.
Defined.

(** [FindAllWithPaging] counts with one query and fetches with another
    that share the joins, WHERE clauses and GROUP BY; the count query never
    carries [Unscoped], SELECT, ORDER BY, offset or limit, while the data
    query is unscoped exactly when the configuration sets [UnScoped]. *)
Theorem paging_count_query_matches_data r c f gc lang st cfg
    {E : Type} (db_find : Query -> list E * option DbError)
    (db_count : Query -> Z * option DbError) :
  deref (config_ptr r gc) st = (Ret cfg, st) -> bad_args c = false ->
  exists qc qd,
    fst (FindAllWithPaging db_find db_count r c f gc lang st) =
      paging_result (db_count qc) (db_find qd) /\
    q_joins qc = q_joins qd /\ q_where qc = q_where qd /\ q_group qc = q_group qd /\
    q_unscoped qc = false /\ q_unscoped qd = UnScoped cfg /\
    q_select qc = None /\ q_order qc = [] /\ q_offset qc = None /\ q_limit qc = None.
Proof.
  intros Hd Hc.
  destruct (FAWP_eval db_find db_count r c f gc lang st cfg Hd Hc)
    as (cfg' & HJ & HU & HG & Heq).
  destruct (config_query_fields cfg' lang c) as (J & W & G & O & Off & L & U & S & P).
  eexists _, _. split; [exact Heq|].
  rewrite <- HU.
  destruct (String.eqb (Group cfg') ""); destruct (Pagination (GetBase f)) as [[|]|]; simpl;
    rewrite ?J, ?W, ?G, ?U; repeat split.
Qed.

Lemma paging_count_query_matches_data_witness :
  deref (config_ptr users_repo None) users_store = (Ret users_config, users_store) /\
  bad_args (CondPtr (Some (Eq "name" (VStr "x")))) = false /\
  exists qc qd,
    fst (FindAllWithPaging find_none count_zero users_repo (CondPtr (Some (Eq "name" (VStr "x"))))
           (request (base_request None None None) []) None "en" users_store) =
      paging_result (count_zero qc) (find_none qd) /\
    q_joins qc = q_joins qd /\ q_where qc = q_where qd /\ q_group qc = q_group qd /\
    q_unscoped qc = false /\ q_unscoped qd = UnScoped users_config /\
    q_select qc = None /\ q_order qc = [] /\ q_offset qc = None /\ q_limit qc = None.
Proof.
  split; [reflexivity|]. split; [reflexivity|].
  apply (paging_count_query_matches_data users_repo _ _ None "en" users_store users_config);
    reflexivity.
Defined.

(** [FindAll] selects and preloads with [ListSelectHandler] and
    [ListPreloads] when they are set (falling back to [SelectHandler] and
    [Preloads]); [FindOne] uses [SelectHandler] and [Preloads] only. *)
Theorem list_overrides_apply_to_find_all_only r c f gc lang st cfg
    {E : Type} (db_first : Query -> E * option DbError)
    (db_find : Query -> list E * option DbError) :
  deref (config_ptr r gc) st = (Ret cfg, st) -> bad_args c = false ->
  (exists q, fst (FindAll db_find r c f gc lang st) = Ret (db_find q) /\
     q_select q = handler_select (match ListSelectHandler cfg with
                                  | Some h => Some h | None => SelectHandler cfg end) lang /\
     q_preloads q = q_preloads (apply_preloads lang (match ListPreloads cfg with
                                                     | Some ps => ps | None => Preloads cfg end)
                                               NewQuery)) /\
  (exists q, fst (FindOne db_first r c gc lang st) = first_result (db_first q) /\
     q_select q = handler_select (SelectHandler cfg) lang /\
     q_preloads q = q_preloads (apply_preloads lang (Preloads cfg) NewQuery)).
Proof.
  intros Hd Hc. split.
  - destruct (FindAll_eval db_find r c f gc lang st cfg Hd Hc)
      as (cfg' & _ & _ & _ & HS & HP & Heq).
    destruct (config_query_fields cfg' lang c) as (_ & _ & _ & _ & _ & _ & _ & S & P).
    eexists. split; [exact Heq|]. simpl. rewrite S, P, HS, HP. split; reflexivity.
  - destruct (config_query_fields cfg lang c) as (_ & _ & _ & _ & _ & _ & _ & S & P).
    eexists. split; [exact (FindOne_eval db_first r c gc lang st cfg Hd Hc)|].
    split; assumption.
Qed.

Lemma list_overrides_apply_to_find_all_only_witness :
  deref (config_ptr users_repo None) list_store = (Ret list_config, list_store) /\
  bad_args (CondPtr None) = false /\
  (exists q, fst (FindAll find_none users_repo (CondPtr None)
                    (request (base_request None None None) []) None "en" list_store) =
             Ret (find_none q) /\
     q_select q = Some "name AS n" /\ q_preloads q = [("Orders", None, false)]) /\
  (exists q, fst (FindOne first_none users_repo (CondPtr None) None "en" list_store) =
             first_result (first_none q) /\
     q_select q = Some "id AS id" /\ q_preloads q = [("Profile", None, false)]).
Proof.
  split; [reflexivity|]. split; [reflexivity|].
  destruct (list_overrides_apply_to_find_all_only users_repo (CondPtr None)
              (request (base_request None None None) []) None "en" list_store list_config
              first_none find_none eq_refl eq_refl)
    as [[q [Hq [Hs Hp]]] [q' [Hq' [Hs' Hp']]]].
  split; [exists q | exists q']; repeat split; assumption.
Defined.

(** For a filter bound by [BindQuery] with no prior [Pagination], the data
    query of [FindAllWithPaging] has no LIMIT exactly when the
    [pagination] parameter is present, non-empty and not ["true"] ignoring
    case: any other value, such as [1] or [yes], turns pagination off. *)
Theorem bind_query_pagination_switch r c f params tm gc lang st cfg
    {E : Type} (db_find : Query -> list E * option DbError)
    (db_count : Query -> Z * option DbError) :
  Pagination f = None ->
  deref (config_ptr r gc) st = (Ret cfg, st) -> bad_args c = false ->
  exists qc qd,
    fst (FindAllWithPaging db_find db_count r c
           {| GetBase := BindQuery f params; ToMap := tm |} gc lang st) =
      paging_result (db_count qc) (db_find qd) /\
    (q_limit qd = None <->
     QueryParam params "pagination" "" <> "" /\
     ToLower (QueryParam params "pagination" "") <> "true").
Proof.
  intros Hp Hd Hc.
  destruct (FAWP_eval db_find db_count r c {| GetBase := BindQuery f params; ToMap := tm |}
              gc lang st cfg Hd Hc) as (cfg' & _ & _ & _ & Heq).
  destruct (config_query_fields cfg' lang c) as (_ & _ & _ & _ & _ & L & _).
  eexists _, _. split; [exact Heq|]. cbn [GetBase].
  unfold BindQuery at 1. cbn [Pagination]. rewrite Hp.
  destruct (String.eqb (QueryParam params "pagination" "") "") eqn:He.
  - apply String.eqb_eq in He. rewrite He.
    destruct (String.eqb (Group cfg') ""); simpl; split; [discriminate| |discriminate|];
      intros [H _]; congruence.
  - apply String.eqb_neq in He.
    destruct (String.eqb (ToLower (QueryParam params "pagination" "")) "true") eqn:Ht.
    + apply String.eqb_eq in Ht.
      destruct (String.eqb (Group cfg') ""); simpl; split; [discriminate| |discriminate|];
        intros [_ H]; congruence.
    + apply String.eqb_neq in Ht.
      destruct (String.eqb (Group cfg') ""); simpl; rewrite ?L; split; auto.
Qed.

Lemma bind_query_pagination_switch_witness :
  Pagination (base_request None None None) = None /\
  deref (config_ptr users_repo None) users_store = (Ret users_config, users_store) /\
  bad_args (CondPtr None) = false /\
  exists qc qd,
    fst (FindAllWithPaging find_none count_zero users_repo (CondPtr None)
           {| GetBase := BindQuery (base_request None None None) [("pagination", "1")];
              ToMap := inl [] |} None "en" users_store) =
      paging_result (count_zero qc) (find_none qd) /\
    (q_limit qd = None <->
     QueryParam [("pagination", "1")] "pagination" "" <> "" /\
     ToLower (QueryParam [("pagination", "1")] "pagination" "") <> "true").
Proof.
  split; [reflexivity|]. split; [reflexivity|]. split; [reflexivity|].
  apply (bind_query_pagination_switch users_repo (CondPtr None) (base_request None None None)
           [("pagination", "1")] (inl []) None "en" users_store users_config); reflexivity.
Defined.

(** Non-empty [sort_key] and [sort_dir] parameters bound by [BindQuery]
    reach the ORDER BY of [FindAll] verbatim as [key + " " + lower(dir)],
    without validation. *)
Theorem bind_query_sort_verbatim r c f params tm gc lang st cfg
    {E : Type} (db_find : Query -> list E * option DbError) :
  QueryParam params "sort_key" "" <> "" -> QueryParam params "sort_dir" "" <> "" ->
  deref (config_ptr r gc) st = (Ret cfg, st) -> bad_args c = false ->
  exists q,
    fst (FindAll db_find r c {| GetBase := BindQuery f params; ToMap := tm |} gc lang st) =
      Ret (db_find q) /\
    q_order q = [QueryParam params "sort_key" "" +s+ " " +s+
                 ToLower (QueryParam params "sort_dir" "")].
Proof.
  intros Hk Hdir Hd Hc.
  destruct (FindAll_eval db_find r c {| GetBase := BindQuery f params; ToMap := tm |}
              gc lang st cfg Hd Hc) as (cfg' & _ & _ & _ & _ & _ & Heq).
  destruct (config_query_fields cfg' lang c) as (_ & _ & _ & O & _).
  eexists. split; [exact Heq|]. simpl q_order. rewrite O. simpl.
  unfold sort_key, sort_dir, BindQuery. cbn [GetBase SortKey SortDir].
  apply String.eqb_neq in Hk, Hdir. rewrite Hk, Hdir. reflexivity.
Qed.

Lemma bind_query_sort_verbatim_witness :
  QueryParam [("sort_key", "name; DROP TABLE users"); ("sort_dir", "DESC")] "sort_key" "" <> "" /\
  QueryParam [("sort_key", "name; DROP TABLE users"); ("sort_dir", "DESC")] "sort_dir" "" <> "" /\
  deref (config_ptr users_repo None) users_store = (Ret users_config, users_store) /\
  bad_args (CondPtr None) = false /\
  exists q,
    fst (FindAll find_none users_repo (CondPtr None)
           {| GetBase := BindQuery (base_request None None None)
                           [("sort_key", "name; DROP TABLE users"); ("sort_dir", "DESC")];
              ToMap := inl [] |} None "en" users_store) = Ret (find_none q) /\
    q_order q = [QueryParam [("sort_key", "name; DROP TABLE users"); ("sort_dir", "DESC")]
                   "sort_key" "" +s+ " " +s+
                 ToLower (QueryParam [("sort_key", "name; DROP TABLE users"); ("sort_dir", "DESC")]
                   "sort_dir" "")].
Proof.
  split; [discriminate|]. split; [discriminate|]. split; [reflexivity|]. split; [reflexivity|].
  apply (bind_query_sort_verbatim users_repo (CondPtr None) (base_request None None None)
           [("sort_key", "name; DROP TABLE users"); ("sort_dir", "DESC")] (inl []) None "en"
           users_store users_config); [discriminate|discriminate|reflexivity|reflexivity].
Defined.

(** [Update] by conditions runs on the chain of [BuildQueryConfig] with the
    repository's configuration: its WHERE clauses, joins, SELECT and
    [Unscoped]; [UpdateByPK] runs on [id = ?] alone, scoped and without
    SELECT or joins. *)
Theorem update_carries_config_scope r c dto lang st cfg id
    (db_write : Stmt -> option DbError) :
  deref (Config r) st = (Ret cfg, st) -> bad_args c = false ->
  (exists q, fst (Update db_write r c dto lang st) = Ret ([SUpdates q dto], db_write (SUpdates q dto)) /\
     q_where q = conditions_where c /\ q_unscoped q = UnScoped cfg /\
     q_select q = handler_select (SelectHandler cfg) lang /\
     q_joins q = (if String.eqb (Joins cfg) "" then [] else [Joins cfg])) /\
  (exists q, UpdateByPK db_write id dto = ([SUpdates q dto], db_write (SUpdates q dto)) /\
     q_where q = [("id = ?", [id])] /\ q_unscoped q = false /\ q_select q = None /\
     q_joins q = []).
Proof.
  intros Hd Hc. split.
  - destruct (config_query_fields cfg lang c) as (J & W & _ & _ & _ & _ & U & S & _).
    eexists. split.
    + unfold Update, mbind. rewrite (BQConfig_eval r c None lang st cfg Hd), Hc. reflexivity.
    + split; [exact W|]. split; [exact U|]. split; [exact S|]. exact J.
  - eexists. split; [reflexivity|]. repeat split.
Qed.

Lemma update_carries_config_scope_witness :
  deref (Config users_repo) users_store = (Ret users_config, users_store) /\
  bad_args (CondPtr (Some (Eq "name" (VStr "x")))) = false /\
  (exists q, fst (Update (fun _ => None) users_repo (CondPtr (Some (Eq "name" (VStr "x"))))
                    VNil "en" users_store) = Ret ([SUpdates q VNil], None) /\
     q_where q = conditions_where (CondPtr (Some (Eq "name" (VStr "x")))) /\
     q_unscoped q = UnScoped users_config /\
     q_select q = handler_select (SelectHandler users_config) "en" /\
     q_joins q = (if String.eqb (Joins users_config) "" then [] else [Joins users_config])).
Proof.
  split; [reflexivity|]. split; [reflexivity|].
  apply (update_carries_config_scope users_repo _ VNil "en" users_store users_config (VInt 1));
    reflexivity.
Defined.

(** When the searchable columns and the filter target columns hold no [?],
    the query [QueryBuilder] returns has as many [?] placeholders as it
    returns arguments. *)
Theorem query_builder_placeholders_match_args r f gc st cfg q args :
  deref (config_ptr r gc) st = (Ret cfg, st) -> columns_plain cfg = true ->
  fst (QueryBuilder r f gc st) = Ret (inl (q, args)) -> count_q q = length args.
Proof.
  intros Hd Hp H. unfold columns_plain in Hp. apply andb_prop in Hp as [Hs Hf].
  rewrite forallb_forall in Hs. rewrite forallb_forall in Hf.
  unfold QueryBuilder, mbind in H. rewrite Hd in H.
  destruct (search_group _ _) as [qs0 vs0] eqn:Hsg.
  destruct (ToMap f) as [result|err]; [|discriminate].
  simpl in H. destruct (filter_loop _ _ _ _) as [[qs vs]|e] eqn:Hl; [|discriminate].
  simpl in H. injection H as <- <-.
  rewrite count_q_concat by reflexivity.
  apply filter_loop_count in Hl.
  - pose proof (search_group_count (Search (GetBase f)) (Searchable cfg)) as Hc.
    rewrite Hsg in Hc. simpl in Hc.
    rewrite Hc in Hl; [lia|].
    apply Forall_forall. intros s Hin. apply Nat.eqb_eq, Hs, list_elem_of_In, Hin.
  - intros k p Hk. apply Nat.eqb_eq, (Hf (k, p)), list_elem_of_In, elem_of_map_to_list, Hk.
Qed.

Lemma query_builder_placeholders_match_args_witness :
  deref (config_ptr users_repo None) users_store = (Ret users_config, users_store) /\
  columns_plain users_config = true /\
  fst (QueryBuilder users_repo (request (base_request (Some "ann") None None) []) None users_store) =
    Ret (inl ("(lower(name) LIKE ? OR lower(email) LIKE ?)",
              [VStr "%ann%"; VStr "%ann%"])) /\
  count_q "(lower(name) LIKE ? OR lower(email) LIKE ?)" = length [VStr "%ann%"; VStr "%ann%"].
Proof.
  split; [reflexivity|]. split; [reflexivity|]. split; [reflexivity|].
  apply (query_builder_placeholders_match_args users_repo
           (request (base_request (Some "ann") None None) []) None users_store users_config);
    reflexivity.
Defined.

(** The key-based operations filter alike: [FindOneByPK], [ExistsByPK],
    [UpdateByPK], [DeleteOneByPK], [UpdateColumnsByPK] and [Restore] by the
    single clause [id = ?] on [id]; [FindByIDs] and [DeleteByIDs] by
    [id IN (?)] on the list of ids. *)
Theorem key_operations_share_where r id ids dto cols lang st cfg
    {E : Type} (db_first : Query -> E * option DbError)
    (db_find : Query -> list E * option DbError) (db_count : Query -> Z * option DbError)
    (db_write : Stmt -> option DbError) :
  deref (Config r) st = (Ret cfg, st) ->
  (exists q, fst (FindOneByPK db_first r id None lang st) = first_result (db_first q) /\
             q_where q = [("id = ?", [id])]) /\
  (exists q, fst (ExistsByPK db_count r id st) =
             Ret (let '(n, err) := db_count q in
                  match err with Some e => (false, Some e) | None => ((0 <? n)%Z, None) end) /\
             q_where q = [("id = ?", [id])]) /\
  Forall (fun s => option_map q_where (stmt_query s) = Some [("id = ?", [id])])
    (fst (UpdateByPK db_write id dto) ++ fst (DeleteOneByPK db_write id) ++
     fst (UpdateColumnsByPK db_write id cols) ++ fst (Restore db_write id)) /\
  (exists q, fst (FindByIDs db_find r ids None lang st) = Ret (db_find q) /\
             q_where q = [("id IN (?)", [VList ids])]) /\
  Forall (fun s => option_map q_where (stmt_query s) = Some [("id IN (?)", [VList ids])])
    (fst (DeleteByIDs db_write ids)).
Proof.
  intros Hd.
  assert (Hd' : deref (config_ptr r None) st = (Ret cfg, st)) by exact Hd.
  split; [|split; [|split; [|split]]].
  - eexists. split.
    + exact (FindOne_eval db_first r (CondPtr (Some (Eq "id" id))) None lang st cfg Hd' eq_refl).
    + destruct (config_query_fields cfg lang (CondPtr (Some (Eq "id" id))))
        as (_ & W & _). exact W.
  - exists (cond_query cfg (CondPtr (Some (Eq "id" id)))). split.
    + unfold ExistsByPK, Exists, Count, mbind.
      assert (Hd'' : deref (config_ptr r (Config r)) st = (Ret cfg, st))
        by (unfold config_ptr; destruct (Config r); exact Hd).
      rewrite (BQC_eval r _ (Config r) st cfg Hd''). simpl.
      destruct (db_count _) as [n [e|]]; reflexivity.
    + reflexivity.
  - repeat constructor.
  - eexists. split.
    + unfold FindByIDs, mbind. rewrite (BQConfig_eval r _ None lang st cfg Hd'). reflexivity.
    + destruct (config_query_fields cfg lang (CondPtr (Some (In "id" (VList ids)))))
        as (_ & W & _). exact W.
  - repeat constructor.
Qed.

Lemma key_operations_share_where_witness :
  deref (Config users_repo) users_store = (Ret users_config, users_store) /\
  exists q, fst (FindOneByPK first_none users_repo (VInt 7) None "en" users_store) =
              first_result (first_none q) /\
            q_where q = [("id = ?", [VInt 7])].
Proof.
  split; [reflexivity|].
  apply (key_operations_share_where users_repo (VInt 7) [] VNil [] "en" users_store users_config
           first_none find_none count_zero (fun _ => None)).
  reflexivity.
Defined.

(** [Restore] reaches soft-deleted rows (its chain is [Unscoped]); the
    other key-based writes, [UpdateByPK], [DeleteOneByPK],
    [UpdateColumnsByPK] and [DeleteByIDs], do not. *)
Theorem restore_scopes id dto cols (db_write : Stmt -> option DbError) :
  Forall (fun s => option_map q_unscoped (stmt_query s) = Some true) (fst (Restore db_write id)) /\
  Forall (fun s => option_map q_unscoped (stmt_query s) = Some false)
    (fst (UpdateByPK db_write id dto) ++ fst (DeleteOneByPK db_write id) ++
     fst (UpdateColumnsByPK db_write id cols) ++ fst (DeleteByIDs db_write [id])).
Proof. split; repeat constructor. Qed.

(** [RestoreByConditions] panics on the same conditions as
    [BuildQueryConditions] and otherwise filters by the same WHERE clauses,
    always [Unscoped] and without the configuration's join. *)
Theorem restore_by_conditions_filter r c gc st cfg (db_write : Stmt -> option DbError) :
  deref (config_ptr r gc) st = (Ret cfg, st) ->
  (bad_args c = true ->
     (exists m, RestoreByConditions db_write c = Panic m) /\
     (exists m, fst (BuildQueryConditions r c gc st) = Panic m)) /\
  (bad_args c = false ->
     exists q q',
       RestoreByConditions db_write c =
         Ret ([SUpdateColumn q "deleted_at" VNil], db_write (SUpdateColumn q "deleted_at" VNil)) /\
       fst (BuildQueryConditions r c gc st) = Ret q' /\
       q_where q = q_where q' /\ q_unscoped q = true /\ q_joins q = []).
Proof.
  intros Hd. rewrite (BQC_eval r c gc st cfg Hd). split.
  - intros Hc. rewrite Hc. split; [|eexists; reflexivity].
    unfold RestoreByConditions. unfold bad_args in Hc.
    destruct c as [co|[qv|] [av|]|]; repeat case_match; simplify_eq/=;
      try discriminate; try congruence; eexists; reflexivity.
  - intros Hc. rewrite Hc.
    exists {| q_joins := []; q_where := conditions_where c; q_select := None; q_preloads := [];
              q_unscoped := true; q_order := []; q_group := []; q_offset := None;
              q_limit := None |}, (cond_query cfg c).
    split; [|split; [reflexivity|split; [reflexivity|split; reflexivity]]].
    unfold RestoreByConditions, conditions_where. unfold bad_args in Hc.
    destruct c as [co|[qv|] [av|]|]; repeat case_match; simplify_eq/=; try reflexivity;
      congruence.
Qed.

Lemma restore_by_conditions_filter_witness :
  deref (config_ptr users_repo None) users_store = (Ret users_config, users_store) /\
  (bad_args (CondMap (Some (VStr "name = ?")) (Some (VStr "ann"))) = true ->
     (exists m, RestoreByConditions (fun _ => None)
                  (CondMap (Some (VStr "name = ?")) (Some (VStr "ann"))) = Panic m) /\
     (exists m, fst (BuildQueryConditions users_repo
                  (CondMap (Some (VStr "name = ?")) (Some (VStr "ann"))) None users_store) =
                Panic m)).
Proof.
  split; [reflexivity|].
  apply (restore_by_conditions_filter users_repo
           (CondMap (Some (VStr "name = ?")) (Some (VStr "ann"))) None users_store users_config
           (fun _ => None)).
  reflexivity.
Defined.

(** The update handler first counts rows with [id = ?] on the path id: a
    zero count answers 404 [item_not_found] and a count error answers 500
    with the error's text, both without writing; [UpdateByPK] is called
    exactly when the count succeeds and is non-zero. *)
Theorem update_handler_checks_existence {T : Type} `{BaseRepository T} (id : string) (e : val) :
  let cond := CondMap (Some (VStr "id = ?")) (Some (VList [VStr id])) in
  (RepoCount cond = (0%Z, None) ->
     UpdateHandler id (inl e) = ([CallCount cond], RespError 404 "item_not_found")) /\
  (forall n err, RepoCount cond = (n, Some err) ->
     UpdateHandler id (inl e) = ([CallCount cond], RespError 500 (ErrorString err))) /\
  (List.In (CallUpdateByPK (VStr id) e) (fst (UpdateHandler id (inl e))) <->
   exists n, RepoCount cond = (n, None) /\ n <> 0%Z).
Proof.
  intros cond. unfold UpdateHandler, GormUpdate, BaseUpdate.
  assert (Hc : ConditionsMap (GormConditionBuilder
                 [{| QueryField.Operation := ""; QueryField.Column := "id";
                     QueryField.Value := VStr id |}]) = cond) by reflexivity.
  rewrite Hc. split; [|split].
  - intros Hn. rewrite Hn. reflexivity.
  - intros n err Hn. rewrite Hn. reflexivity.
  - destruct (RepoCount cond) as [n [err|]].
    + simpl. split; [intros [Hf|Hf]; [discriminate|contradiction]|].
      intros (n' & Hn' & _). discriminate.
    + destruct (Z.eqb_spec n 0) as [->|Hn].
      * simpl. split; [intros [Hf|Hf]; [discriminate|contradiction]|].
        intros (n' & Hn' & Hne). injection Hn' as <-. contradiction.
      * split; [intros _; exists n; split; [reflexivity|exact Hn]|intros _].
        destruct (RepoUpdateByPK (VStr id) e) as [err|];
          [|destruct (RepoFindOneByPK (VStr id) None) as [[it|] [err|]]];
          simpl; auto.
Qed.

(** [ExistsByPK] is [Exists] on the map [GormConditionBuilder] builds for
    [{Column: "id", Value: id}]: the two existence checks of the services
    run the same count. *)
Theorem exists_by_pk_is_count_check (db_count : Query -> Z * option DbError)
    (r : GormRepository) (id : val) :
  ExistsByPK db_count r id =
  Exists db_count r (ConditionsMap (GormConditionBuilder
    [{| QueryField.Operation := ""; QueryField.Column := "id"; QueryField.Value := id |}])).
Proof. reflexivity. Qed.

(** A [page] or [per_page] parameter of decimal digits binds to its value
    capped at [2^63 - 1] (out-of-range values saturate instead of failing). *)
Theorem bind_query_numeric_saturates (f : BaseFilterDto) (params : list (string * string)) :
  (forall v, decimal_value (QueryParam params "page" "1") = Some v ->
     Page (BindQuery f params) = Z.min v (2 ^ 63 - 1)) /\
  (forall v, decimal_value (QueryParam params "per_page" "10") = Some v ->
     PerPage (BindQuery f params) = Z.min v (2 ^ 63 - 1)).
Proof.
  split; intros v Hv; unfold BindQuery; cbn [Page PerPage];
    rewrite (atoi_decimal _ v) by (try apply QueryParam_nonempty; try discriminate; exact Hv);
    destruct (Z.ltb_spec v (2 ^ 63)); simpl; lia.
Qed.

End Extras.
